(** * ZKT attendance reader: the live poller of [live_daily_attendance.py]

    A shallow embedding of the poller and the properties of its
    synchronisation loop.

    Conventions of the model.
    - The sqlite database and the files written by the poller form the
      [World] that every function threads; each sqlite call commits on its
      own, so what an interrupted poll wrote before the interruption stays.
    - Python exceptions are the [Raise] results of the monad [M];
      [try_except] is the handler of [poll_once].
    - The device, the wall clock and the local time zone are inputs: the
      reply of [get_attendance], the value of [datetime.now()] and the
      function [fromtimestamp], which is taken total: the epochs of the
      device lie in the range the host can convert.
    - A device timestamp is a number of seconds (the source applies [int] to
      it), here a rational, which covers integers and the values of floats.
    - The store can fail: [io_fails] says which sqlite call raises in which
      state; [reliable] is the store that never does. A table that sqlite
      has not created yet is an empty table of the [World].
    - The roster file is held as [csv.DictReader] yields it: for every line
      below the header, the text of the cell under each column name of the
      header. Lines are taken to have a cell for every column, and texts to
      be ASCII.
    - [ROLLOVER_HOUR], 0 in the source, is a parameter.
    - What the poller prints is recorded, with the committed writes, in the
      trace of [action]s; the [datetime.now()] prefix of the printed lines is
      left out. *)

From Stdlib Require Import ZArith QArith Qround String Ascii List Lia.
From Stdlib Require Import Sorting.Sorted Sorting.Permutation.
From stdpp Require Import base gmap strings list fin_maps sorting.

Local Open Scope string_scope.
Local Open Scope list_scope.
Local Open Scope Z_scope.

(** ** Python values used by the poller *)

(** The value a Python call evaluates to, where the source returns nothing
    ([None]) or a boolean. *)
Inductive pyval :=
  | PyNone
  | PyBool (b : bool).

(** [int(x)] on a number: truncation toward zero. *)
Definition py_int (x : Q) : Z := Z.quot (Qnum x) (Z.pos (Qden x)).

(** [int(s)] on a text: blanks around it are dropped, then come an optional
    sign and decimal digits, with single underscores allowed between two
    digits. Any other text makes [int] raise [ValueError], here [None]. *)
Definition is_space (c : ascii) : bool :=
  let n := Z.of_nat (nat_of_ascii c) in
  ((9 <=? n) && (n <=? 13)) || (n =? 32).

Fixpoint lstrip (s : string) : string :=
  match s with
  | String c s' => if is_space c then lstrip s' else s
  | EmptyString => EmptyString
  end.

Fixpoint rstrip (s : string) : string :=
  match s with
  | EmptyString => EmptyString
  | String c s' =>
      match rstrip s' with
      | EmptyString => if is_space c then EmptyString else String c EmptyString
      | r => String c r
      end
  end.

Definition digit_value (c : ascii) : option Z :=
  let n := Z.of_nat (nat_of_ascii c) in
  if (48 <=? n) && (n <=? 57) then Some (n - 48) else None.

(** The digits after the sign; [after_digit] says that the character before
    was a digit, which an underscore and the end of the text need. *)
Fixpoint digits_value (acc : Z) (after_digit : bool) (s : string) : option Z :=
  match s with
  | EmptyString => if after_digit then Some acc else None
  | String c s' =>
      if Ascii.eqb c "_"%char
      then (if after_digit then digits_value acc false s' else None)
      else match digit_value c with
           | Some d => digits_value (10 * acc + d) true s'
           | None => None
           end
  end.

Definition py_int_str (s : string) : option Z :=
  match rstrip (lstrip s) with
  | String "+"%char s' => digits_value 0 false s'
  | String "-"%char s' => Z.opp <$> digits_value 0 false s'
  | s' => digits_value 0 false s'
  end.

(** Truth value of [r[0] if r else None] for a TEXT column. *)
Definition truthy (v : option string) : bool :=
  match v with
  | Some s => negb (String.eqb s "")
  | None => false
  end.

(** [sorted(l, key=key)]: a stable sort, ascending in [key]. An element is
    put in front of the first element of the sorted rest whose key is not
    smaller, so equal keys keep the order of the input. *)
Section PySorted.
Context {A K : Type} (key : A → K) (leb : K → K → bool).

Fixpoint insert_by (x : A) (l : list A) : list A :=
  match l with
  | [] => [x]
  | y :: l' => if leb (key x) (key y) then x :: l else y :: insert_by x l'
  end.

Definition py_sorted (l : list A) : list A := foldr insert_by [] l.

(** The elements whose key is equivalent to [k] in the order of [leb]. *)
Definition same_key (k : K) (a : A) : bool := leb (key a) k && leb k (key a).
End PySorted.

(** ** Dates and times *)

Record date := Date { d_year : Z; d_month : Z; d_day : Z }.

Record datetime := DateTime {
  dt_date : date;           (* [dt.date()] *)
  dt_hour : Z;
  dt_minute : Z;
  dt_second : Z }.

Definition digit (n : Z) : ascii := ascii_of_nat (48 + Z.to_nat (n mod 10)).

(** [%02d] and [%04d] of a non-negative number below 100, resp. 10000. *)
Definition pad2 (n : Z) : string :=
  String (digit (n / 10)) (String (digit n) EmptyString).

Definition pad4 (n : Z) : string :=
  String (digit (n / 1000)) (String (digit (n / 100)) (pad2 n)).

(** [date.isoformat()]: YYYY-MM-DD. *)
Definition isoformat (d : date) : string :=
  pad4 (d_year d) +:+ "-" +:+ pad2 (d_month d) +:+ "-" +:+ pad2 (d_day d).

(** [dt.strftime('%Y-%m-%d %H:%M:%S')]. *)
Definition strftime (dt : datetime) : string :=
  isoformat (dt_date dt) +:+ " " +:+ pad2 (dt_hour dt) +:+ ":" +:+
  pad2 (dt_minute dt) +:+ ":" +:+ pad2 (dt_second dt).

Definition is_leap (y : Z) : bool :=
  (y mod 4 =? 0) && (negb (y mod 100 =? 0) || (y mod 400 =? 0)).

Definition days_in_month (y m : Z) : Z :=
  if m =? 2 then (if is_leap y then 29 else 28)
  else if (m =? 4) || (m =? 6) || (m =? 9) || (m =? 11) then 30
  else 31.

(** [(dt - timedelta(days=1)).date()] *)
Definition minus_one_day (d : date) : date :=
  if 1 <? d_day d then Date (d_year d) (d_month d) (d_day d - 1)
  else if 1 <? d_month d
       then Date (d_year d) (d_month d - 1) (days_in_month (d_year d) (d_month d - 1))
       else Date (d_year d - 1) 12 31.

(** [datetime.fromtimestamp] on a host whose local zone is UTC: the civil
    date of the day number, in the proleptic Gregorian calendar. *)
Definition civil_from_days (days : Z) : date :=
  let z := days + 719468 in
  let era := z / 146097 in
  let doe := z - era * 146097 in
  let yoe := (doe - doe / 1460 + doe / 36524 - doe / 146096) / 365 in
  let doy := doe - (365 * yoe + yoe / 4 - yoe / 100) in
  let mp := (5 * doy + 2) / 153 in
  let d := doy - (153 * mp + 2) / 5 + 1 in
  let m := if mp <? 10 then mp + 3 else mp - 9 in
  Date (yoe + era * 400 + (if m <=? 2 then 1 else 0)) m d.

Definition utc_fromtimestamp (epoch : Z) : datetime :=
  let s := epoch mod 86400 in
  DateTime (civil_from_days (epoch / 86400)) (s / 3600) (s mod 3600 / 60) (s mod 60).

(** ** Data *)

(** A roster entry, [{'id': uid, 'name': row['name']}]. *)
Record user := User { id : Z; name : string }.

(** A record of the device, with [.user_id] and [.timestamp]. *)
Record Attendance := Rec { user_id : Z; timestamp : Q }.

(** A line of an attendance file below the header
    [id,name,status,first_checkin_local]; the id is kept as the number
    that [int(rr['id'])] reads back. *)
Record row := Row {
  r_id : Z;
  r_name : string;
  r_status : string;
  r_first_checkin_local : string }.

(** A line of [users.csv] as [csv.DictReader] yields it: the text of the
    cell under each column name of the header. *)
Definition csv_row : Type := gmap string string.

(** The three tables of the sqlite file, the attendance files by name, and
    the lines of [users.csv] when that file exists. *)
Record World := mkWorld {
  processed : gset Z;                      (* processed(device_epoch) *)
  present : gmap (string * Z) string;      (* present(day, user_id) -> first_checkin_local *)
  meta : gmap string string;               (* meta(k) -> v *)
  files : gmap string (list row);
  users_csv : option (list csv_row) }.

Definition set_processed (f : gset Z → gset Z) (w : World) : World :=
  mkWorld (f (processed w)) (present w) (meta w) (files w) (users_csv w).
Definition set_present (f : gmap (string * Z) string → gmap (string * Z) string)
    (w : World) : World :=
  mkWorld (processed w) (f (present w)) (meta w) (files w) (users_csv w).
Definition set_meta_table (f : gmap string string → gmap string string)
    (w : World) : World :=
  mkWorld (processed w) (present w) (f (meta w)) (files w) (users_csv w).
Definition set_files (f : gmap string (list row) → gmap string (list row))
    (w : World) : World :=
  mkWorld (processed w) (present w) (meta w) (f (files w)) (users_csv w).

(** The calls into the sqlite store, as the unit at which the store can
    fail. *)
Inductive store_op :=
  | OpInitDb
  | OpGetMeta (k : string)
  | OpSetMeta (k v : string)
  | OpMarkEpoch (epoch : Z)
  | OpIsEpoch (epoch : Z)
  | OpIsMarked (uid : Z) (daystr : string)
  | OpMarkPresent (uid : Z) (daystr first_checkin_local : string).

Inductive exn :=
  | OperationalError (op : store_op)       (* sqlite3: the store call failed *)
  | FileNotFoundError (filename : string)  (* open() of a missing file *)
  | KeyError (key : string)                (* row[key] without such a column *)
  | ValueError (text : string)             (* int(text) of no number *)
  | ZKNetworkError                         (* connect / get_attendance failed *)
  | SystemExit (msg : string).             (* raise SystemExit: not an Exception *)

(** [except Exception] catches everything but [SystemExit]. *)
Definition is_Exception (e : exn) : bool :=
  match e with SystemExit _ => false | _ => true end.

(** What the poller prints. *)
Inductive obs :=
  | Created (filename : string)
  | UnknownUser (uid : Z) (at_time : string)
  | ScannedAgain (uname : string) (uid : Z) (at_time existing : string)
  | MarkedPresent (uname : string) (uid : Z) (checkin_str csvfile : string)
  | PollError (e : exn)
  | Started (daystr : string)
  | NewDay (daystr csvfile : string).

(** The visible effects, in the order they happen. *)
Inductive action :=
  | Commit (op : store_op)         (* a write to the store, committed *)
  | FileWrite (filename : string)  (* an attendance file (re)written *)
  | Print (o : obs).

(** ** The monad of the poller: state, exceptions and the trace *)

Inductive result (A : Type) :=
  | Ok (a : A)
  | Raise (e : exn).
Arguments Ok {A} a.
Arguments Raise {A} e.

Record outcome (A : Type) := Out {
  res : result A;
  world : World;
  trace : list action }.
Arguments Out {A} res world trace.
Arguments res {A} o.
Arguments world {A} o.
Arguments trace {A} o.

Definition M (A : Type) : Type := World → outcome A.

Definition ret {A} (a : A) : M A := λ w, Out (Ok a) w [].

Definition bind {A B} (m : M A) (f : A → M B) : M B := λ w,
  match m w with
  | Out (Ok a) w1 t1 =>
      match f a w1 with Out r w2 t2 => Out r w2 (t1 ++ t2) end
  | Out (Raise e) w1 t1 => Out (Raise e) w1 t1
  end.

Definition raise {A} (e : exn) : M A := λ w, Out (Raise e) w [].
Definition get : M World := λ w, Out (Ok w) w [].
Definition modify (f : World → World) : M unit := λ w, Out (Ok tt) (f w) [].
Definition emit (a : action) : M unit := λ w, Out (Ok tt) w [a].
Definition print (o : obs) : M unit := emit (Print o).

(** [try: body except Exception as e: handler(e)] *)
Definition try_except {A} (body : M A) (handler : exn → M A) : M A := λ w,
  match body w with
  | Out (Raise e) w1 t1 =>
      if is_Exception e
      then match handler e w1 with Out r w2 t2 => Out r w2 (t1 ++ t2) end
      else Out (Raise e) w1 t1
  | o => o
  end.

#[global] Instance M_ret : MRet M := @ret.
#[global] Instance M_bind : MBind M := λ A B f m, bind m f.

(** [for x in l: body(x)]; an exception leaves the loop. *)
Fixpoint for_each {A} (body : A → M unit) (l : list A) : M unit :=
  match l with
  | [] => ret tt
  | x :: l' => body x;; for_each body l'
  end.

(** ** Configuration *)

Definition USERS_CSV : string := "users.csv".
Definition OUTPUT_DIR : string := ".".
Definition CURRENT_CSV_DATE : string := "current_csv_date".

(** [os.path.join(OUTPUT_DIR, name)] for a relative [name]. *)
Definition path_join (dir fname : string) : string := dir +:+ "/" +:+ fname.

Definition attendance_file (daystr : string) : string :=
  path_join OUTPUT_DIR ("attendance_" +:+ daystr +:+ ".csv").

(** A store that never fails. *)
Definition reliable : store_op → World → bool := λ _ _, false.

(** ** The poller *)

Section Engine.
(** [datetime.fromtimestamp]: local time of an epoch, as the host has it. *)
Variable fromtimestamp : Z → datetime.
(** Which store calls fail with an I/O error, in which state of the world. *)
Variable io_fails : store_op → World → bool.
(** The configured hour at which the day rolls over. *)
Variable ROLLOVER_HOUR : Z.

(** A call into sqlite: connect, run [body], commit. When the store fails
    nothing is written and the error is raised. *)
Definition sql {A} (op : store_op) (body : M A) : M A := λ w,
  if io_fails op w then Out (Raise (OperationalError op)) w [] else body w.

(** A call into sqlite as the others: when the store fails the error is
    raised. CREATE TABLE IF NOT EXISTS keeps the rows of a table that is
    there and makes an empty table of one that is not, so the tables of
    the [World] stay as they are; the commit is recorded. *)
Definition init_db : M unit := sql OpInitDb (emit (Commit OpInitDb)).

(** The body of the loop over the lines of [users.csv]: [row['id']],
    [int] of it, [row['name']], then the entry of [uid] is set. *)
Definition read_row (users : gmap Z user) (row : csv_row) : result (gmap Z user) :=
  match row !! "id" with
  | None => Raise (KeyError "id")
  | Some cell =>
      match py_int_str cell with
      | None => Raise (ValueError cell)
      | Some uid =>
          match row !! "name" with
          | None => Raise (KeyError "name")
          | Some nm => Ok (<[uid := User uid nm]> users)
          end
      end
  end.

Fixpoint read_rows (users : gmap Z user) (rows : list csv_row)
    : result (gmap Z user) :=
  match rows with
  | [] => Ok users
  | row :: rest =>
      match read_row users row with
      | Ok users' => read_rows users' rest
      | Raise e => Raise e
      end
  end.

Definition load_users : M (gmap Z user) :=
  w ← get;
  match users_csv w with
  | None => raise (SystemExit "Missing users.csv. Create it with header 'id,name'.")
  | Some rows =>
      match read_rows ∅ rows with
      | Ok users => ret users
      | Raise e => raise e
      end
  end.

Definition get_meta (k : string) : M (option string) :=
  sql (OpGetMeta k) (w ← get; ret (meta w !! k)).

Definition set_meta (k v : string) : M unit :=
  sql (OpSetMeta k v)
    (modify (set_meta_table <[k := v]>);; emit (Commit (OpSetMeta k v))).

(** INSERT into a table whose key is primary: an existing key raises
    IntegrityError, which is swallowed. Nothing is returned. *)
Definition mark_epoch_processed (epoch : Z) : M pyval :=
  sql (OpMarkEpoch epoch)
    (w ← get;
     (if bool_decide (epoch ∈ processed w) then ret tt
      else modify (set_processed (λ s, {[epoch]} ∪ s));;
           emit (Commit (OpMarkEpoch epoch)));;
     ret PyNone).

Definition is_epoch_processed (epoch : Z) : M bool :=
  sql (OpIsEpoch epoch) (w ← get; ret (bool_decide (epoch ∈ processed w))).

Definition day_str_for_dt (dt : datetime) : string := isoformat (dt_date dt).

Definition is_user_marked_today (uid : Z) (daystr : string) : M (option string) :=
  sql (OpIsMarked uid daystr) (w ← get; ret (present w !! (daystr, uid))).

(** INSERT OR REPLACE. *)
Definition mark_user_present (uid : Z) (daystr first_checkin_local : string) : M unit :=
  sql (OpMarkPresent uid daystr first_checkin_local)
    (modify (set_present <[(daystr, uid) := first_checkin_local]>);;
     emit (Commit (OpMarkPresent uid daystr first_checkin_local))).

(** [sorted(users)] walks the ids in ascending order; each id is kept with
    its entry, which is what [users[uid]] then reads. *)
Definition absent_rows (users : gmap Z user) : list row :=
  (λ '(uid, u), Row uid (name u) "Absent" "") <$>
    py_sorted fst Z.leb (map_to_list users).

Definition make_daily_csv (users : gmap Z user) (day : string) : M string :=
  let filename := attendance_file day in
  modify (set_files <[filename := absent_rows users]>);;
  emit (FileWrite filename);;
  set_meta CURRENT_CSV_DATE day;;
  print (Created filename);;
  ret filename.

(** The loop over the rows of the file: every row of [uid] that is not
    Present becomes Present with [checkin_str]. *)
Fixpoint mark_rows (uid : Z) (checkin_str : string) (rows : list row)
    : list row * bool :=
  match rows with
  | [] => ([], false)
  | rr :: rest =>
      let '(tmp_rows, updated) := mark_rows uid checkin_str rest in
      if (r_id rr =? uid) && negb (String.eqb (r_status rr) "Present")
      then (Row (r_id rr) (r_name rr) "Present" checkin_str :: tmp_rows, true)
      else (rr :: tmp_rows, updated)
  end.

Definition update_csv_mark_present (filename : string) (uid : Z)
    (checkin_str : string) : M bool :=
  w ← get;
  match files w !! filename with
  | None => raise (FileNotFoundError filename)
  | Some rows =>
      let '(tmp_rows, updated) := mark_rows uid checkin_str rows in
      (if updated
       then modify (set_files <[filename := tmp_rows]>);; emit (FileWrite filename)
       else ret tt);;
      ret updated
  end.

Definition device_epoch_to_local_str (epoch : Z) : string :=
  strftime (fromtimestamp epoch).

(** The body of the loop of [poll_once]; [continue] is the end of the
    body. *)
Definition handle_rec (users : gmap Z user) (csvfile : string)
    (rec : Attendance) : M unit :=
  let epoch := py_int (timestamp rec) in
  seen ← is_epoch_processed epoch;
  if seen : bool then ret tt
  else
    let uid := user_id rec in
    _ ← mark_epoch_processed epoch;
    match users !! uid with
    | None => print (UnknownUser uid (device_epoch_to_local_str epoch))
    | Some u =>
        let today := day_str_for_dt (fromtimestamp epoch) in
        existing ← is_user_marked_today uid today;
        if truthy existing
        then print (ScannedAgain (name u) uid (device_epoch_to_local_str epoch)
                      (default "" existing))
        else
          let checkin_str := device_epoch_to_local_str epoch in
          marked ← update_csv_mark_present csvfile uid checkin_str;
          mark_user_present uid today checkin_str;;
          print (MarkedPresent (name u) uid checkin_str csvfile)
    end.

(** [device] is what [zk.connect()] and [get_attendance()] give: the
    records, or the error they raise. *)
Definition poll_once (users : gmap Z user) (csvfile : string)
    (device : result (list Attendance)) : M unit :=
  try_except
    (recs ← (match device with Ok recs => ret recs | Raise e => raise e end);
     let recs := py_sorted timestamp Qle_bool recs in
     for_each (handle_rec users csvfile) recs)
    (λ e, print (PollError e)).

Definition active_day (now : datetime) : date :=
  if dt_hour now <? ROLLOVER_HOUR then minus_one_day (dt_date now)
  else dt_date now.

Definition ensure_csv_for_today (users : gmap Z user) (now : datetime)
    : M (string * string) :=
  let daystr := isoformat (active_day now) in
  current ← get_meta CURRENT_CSV_DATE;
  let csvfile := attendance_file daystr in
  w ← get;
  (if bool_decide (current ≠ Some daystr) || negb (bool_decide (is_Some (files w !! csvfile)))
   then _ ← make_daily_csv users daystr; ret tt
   else ret tt);;
  ret (csvfile, daystr).

(** What [main_loop] holds between two iterations. *)
Record loop_state := LoopState {
  ls_users : gmap Z user;
  ls_csvfile : string;
  ls_daystr : string }.

(** [main_loop] up to the loop. *)
Definition startup (now : datetime) : M loop_state :=
  init_db;;
  users ← load_users;
  '(csvfile, daystr) ← ensure_csv_for_today users now;
  print (Started daystr);;
  ret (LoopState users csvfile daystr).

(** The day check of one iteration: the file of the active day is ensured
    with the roster in memory, then the roster is read again when the day
    differs from the one in memory. *)
Definition day_check (now : datetime) (ls : loop_state) : M loop_state :=
  '(csvfile, newday) ← ensure_csv_for_today (ls_users ls) now;
  if bool_decide (newday ≠ ls_daystr ls)
  then users ← load_users;
       print (NewDay newday csvfile);;
       ret (LoopState users csvfile newday)
  else ret (LoopState (ls_users ls) csvfile (ls_daystr ls)).

(** One iteration of the [while True] loop, the sleep left out. *)
Definition loop_body (now : datetime) (device : result (list Attendance))
    (ls : loop_state) : M loop_state :=
  ls' ← day_check now ls;
  poll_once (ls_users ls') (ls_csvfile ls') device;;
  ret ls'.

(** Several polls in a row, each with the roster, the file and the device
    reply of its own: the roster and the file in memory may differ from
    poll to poll, as they do after a restart. *)
Definition poll := (gmap Z user * string * result (list Attendance))%type.

Fixpoint polls (ps : list poll) : M unit :=
  match ps with
  | [] => ret tt
  | (users, csvfile, device) :: ps' =>
      poll_once users csvfile device;; polls ps'
  end.
End Engine.

(** ** Vocabulary of the properties *)

(** The key under which a record is deduplicated. *)
Definition event_key (rec : Attendance) : Z := py_int (timestamp rec).

(** The action that marks the key [k] processed. *)
Definition is_mark (k : Z) (a : action) : bool :=
  match a with
  | Commit (OpMarkEpoch k') => k' =? k
  | _ => false
  end.

(** How often the key [k] is marked processed in a trace. *)
Definition nmarks (k : Z) (t : list action) : nat :=
  length (List.filter (is_mark k) t).

(** A computation marks the key [k] at most once: it keeps the processed
    keys, marks [k] at most once, not at all when [k] is processed, and
    leaves [k] processed when it marked it. *)
Definition marks_once (k : Z) {A} (m : M A) : Prop :=
  ∀ w,
    processed w ⊆ processed (world (m w)) ∧
    (nmarks k (trace (m w)) ≤ if bool_decide (k ∈ processed w) then 0 else 1)%nat ∧
    ((1 ≤ nmarks k (trace (m w)))%nat → k ∈ processed (world (m w))).

(** [later w w']: the poller gets from the world [w] to the world [w'] by
    handling records and by day checks, any number of them, each with the
    roster, the file and the clock it happens to have in memory — the rest
    of a batch, later polls, a rollover, a restart. *)
Inductive later (fromtimestamp : Z → datetime) (io_fails : store_op → World → bool)
    : World → World → Prop :=
  | later_now w : later fromtimestamp io_fails w w
  | later_rec w w' users csvfile rec :
      later fromtimestamp io_fails w w' →
      later fromtimestamp io_fails w
        (world (handle_rec fromtimestamp io_fails users csvfile rec w'))
  | later_day_check w w' ROLLOVER_HOUR now ls :
      later fromtimestamp io_fails w w' →
      later fromtimestamp io_fails w
        (world (day_check io_fails ROLLOVER_HOUR now ls w')).

(** A computation that leaves the processed keys and the present table as
    they are. *)
Definition keeps_store {A} (m : M A) : Prop :=
  ∀ w, processed (world (m w)) = processed w ∧ present (world (m w)) = present w.

(** A write of a presence marker to the store; a write of a ledger file. *)
Definition is_store_write (a : action) : bool :=
  match a with
  | Commit (OpMarkPresent _ _ _) => true
  | _ => false
  end.

Definition is_ledger_write (a : action) : bool :=
  match a with
  | FileWrite _ => true
  | _ => false
  end.

(** The records of a batch that get past the check of [is_epoch_processed]
    when the batch is walked in this order from a store in which the keys
    [seen] are processed: each key once, at its first record. *)
Fixpoint fresh_recs (seen : gset Z) (l : list Attendance) : list Attendance :=
  match l with
  | [] => []
  | rec :: l' =>
      if bool_decide (event_key rec ∈ seen) then fresh_recs seen l'
      else rec :: fresh_recs ({[event_key rec]} ∪ seen) l'
  end.

(** The marking of any key. *)
Definition is_any_mark (a : action) : bool :=
  match a with
  | Commit (OpMarkEpoch _) => true
  | _ => false
  end.

(** A record of the user [P], who is in the roster, on the day [D]. *)
Definition qualifies (fromtimestamp : Z → datetime) (users : gmap Z user)
    (P : Z) (D : string) (rec : Attendance) : bool :=
  bool_decide (user_id rec = P ∧ is_Some (users !! P) ∧
               day_str_for_dt (fromtimestamp (event_key rec)) = D).

(** The id and the name that [load_users] reads from a line, when the line
    has both and the id is a number. *)
Definition row_fields (row : csv_row) : option (Z * string) :=
  match row !! "id" with
  | None => None
  | Some cell =>
      match py_int_str cell with
      | None => None
      | Some uid =>
          match row !! "name" with
          | None => None
          | Some nm => Some (uid, nm)
          end
      end
  end.

(** The roster of the ids and names of the lines, in the order of the file:
    later lines replace earlier ones with the same id. *)
Definition roster_of_rows (rows : list (Z * string)) : gmap Z user :=
  foldl (λ (users : gmap Z user) '(uid, nm), <[uid := User uid nm]> users) ∅ rows.

(** A row of the user [uid] that is not yet Present, and what the loop of
    [update_csv_mark_present] makes of a row. *)
Definition needs_mark (uid : Z) (rr : row) : bool :=
  (r_id rr =? uid) && negb (String.eqb (r_status rr) "Present").

Definition mark_row (uid : Z) (checkin_str : string) (rr : row) : row :=
  if needs_mark uid rr then Row (r_id rr) (r_name rr) "Present" checkin_str
  else rr.

(** How a row of a file may differ after polls: same id and name, a Present
    row untouched, any other row untouched or turned Present. *)
Definition row_kept (r r' : row) : Prop :=
  r_id r' = r_id r ∧ r_name r' = r_name r ∧
  (r_status r = "Present" → r' = r) ∧
  (r' = r ∨ r_status r' = "Present").

(** The files of [w'] are those of [w], row by row in the sense of
    [row_kept]. *)
Definition files_kept (w w' : World) : Prop :=
  ∀ f rows, files w !! f = Some rows →
    ∃ rows', files w' !! f = Some rows' ∧ Forall2 row_kept rows rows'.

(** A printed line. *)
Definition is_print (a : action) : bool :=
  match a with
  | Print _ => true
  | _ => false
  end.

(** Every marker of the present table holds a text that starts with the
    day it is filed under. *)
Definition markers_dated (w : World) : Prop :=
  ∀ day uid s, present w !! (day, uid) = Some s →
    s ≠ "" ∧ ∃ rest, s = day +:+ " " +:+ rest.

(** A computation that leaves every file but [f0] as it is. *)
Definition touches_only (f0 : string) {A} (m : M A) : Prop :=
  ∀ w f, f ≠ f0 → files (world (m w)) !! f = files w !! f.

(** ** Sample data *)

Definition ann : user := User 1 "Ann".
Definition bob : user := User 2 "Bob".
Definition sample_roster : gmap Z user := {[ 1 := ann; 2 := bob ]}.

(** The line of a roster file with the header [id,name]. *)
Definition csv_line (id_cell name_cell : string) : csv_row :=
  {[ "id" := id_cell; "name" := name_cell ]}.

(** A fresh state store, no attendance file, and a roster file. *)
Definition fresh_world : World :=
  mkWorld ∅ ∅ ∅ ∅ (Some [csv_line "1" "Ann"; csv_line "2" "Bob"]).

(** The same with the attendance file of 1970-01-02 made for the sample
    roster. *)
Definition sample_csv : string := attendance_file "1970-01-02".

Definition sample_world : World :=
  world (make_daily_csv reliable sample_roster "1970-01-02" fresh_world).

(** A store on which marking the key [k] fails, and nothing else. *)
Definition fails_on_mark (k : Z) : store_op → World → bool := λ op _,
  match op with
  | OpMarkEpoch k' => k' =? k
  | _ => false
  end.

(** The state store says that the file of 1970-01-02 is the current one, but
    the file is not there; the roster file has Ann and Bob. *)
Definition world_file_gone : World :=
  mkWorld ∅ ∅ {[ CURRENT_CSV_DATE := "1970-01-02" ]} ∅
    (Some [csv_line "1" "Ann"; csv_line "2" "Bob"]).

(** A store on which reading a value of the meta table fails, and nothing
    else. *)
Definition fails_on_get_meta : store_op → World → bool := λ op _,
  match op with
  | OpGetMeta _ => true
  | _ => false
  end.

(** A store on which asking for the marker of a user fails, and nothing
    else. *)
Definition fails_on_is_marked : store_op → World → bool := λ op _,
  match op with
  | OpIsMarked _ _ => true
  | _ => false
  end.

(** * Properties *)

(** ** The model on sample data *)

Example py_int_truncates :
  py_int (7 # 2) = 3 ∧ py_int (-7 # 2) = -3 ∧ py_int (3600 # 1) = 3600.
Proof. repeat split; reflexivity. Qed.

Example utc_fromtimestamp_samples :
  strftime (utc_fromtimestamp 0) = "1970-01-01 00:00:00" ∧
  strftime (utc_fromtimestamp 951782400) = "2000-02-29 00:00:00" ∧
  strftime (utc_fromtimestamp 1700000000) = "2023-11-14 22:13:20" ∧
  isoformat (minus_one_day (Date 2024 3 1)) = "2024-02-29".
Proof. repeat split; reflexivity. Qed.

(** [int] on the text of a cell. *)
Example py_int_str_samples :
  py_int_str "12" = Some 12 ∧ py_int_str " 12 " = Some 12 ∧
  py_int_str "-5" = Some (-5) ∧ py_int_str "+5" = Some 5 ∧
  py_int_str "007" = Some 7 ∧ py_int_str "1_000" = Some 1000 ∧
  py_int_str "" = None ∧ py_int_str "1.5" = None ∧ py_int_str "- 5" = None ∧
  py_int_str "1__0" = None ∧ py_int_str "_1" = None ∧ py_int_str "1_" = None ∧
  py_int_str "0x10" = None ∧ py_int_str "+" = None ∧ py_int_str "1 2" = None.
Proof. repeat split; reflexivity. Qed.

Example py_sorted_sample :
  py_sorted timestamp Qle_bool
    [Rec 3 (30 # 1); Rec 1 (10 # 1); Rec 2 (10 # 1); Rec 4 (5 # 1)] =
  [Rec 4 (5 # 1); Rec 1 (10 # 1); Rec 2 (10 # 1); Rec 3 (30 # 1)].
Proof. reflexivity. Qed.

Example mark_rows_sample :
  mark_rows 2 "1970-01-01 08:00:00"
    [Row 1 "Ann" "Absent" ""; Row 2 "Bob" "Absent" ""] =
  ([Row 1 "Ann" "Absent" ""; Row 2 "Bob" "Present" "1970-01-01 08:00:00"], true) ∧
  mark_rows 2 "1970-01-01 08:30:00"
    [Row 1 "Ann" "Absent" ""; Row 2 "Bob" "Present" "1970-01-01 08:00:00"] =
  ([Row 1 "Ann" "Absent" ""; Row 2 "Bob" "Present" "1970-01-01 08:00:00"], false).
Proof. split; reflexivity. Qed.

(** A poll of three records on the sample world: an unknown user, a first
    scan, a second scan of the same user on the same day. *)
Example poll_once_sample :
  let o := poll_once utc_fromtimestamp reliable sample_roster sample_csv
             (Ok [Rec 1 (7200 # 1); Rec 7 (100 # 1); Rec 1 (3600 # 1)])
             sample_world in
  res o = Ok tt ∧
  trace o =
    [Commit (OpMarkEpoch 100);
     Print (UnknownUser 7 "1970-01-01 00:01:40");
     Commit (OpMarkEpoch 3600);
     FileWrite "./attendance_1970-01-02.csv";
     Commit (OpMarkPresent 1 "1970-01-01" "1970-01-01 01:00:00");
     Print (MarkedPresent "Ann" 1 "1970-01-01 01:00:00" "./attendance_1970-01-02.csv");
     Commit (OpMarkEpoch 7200);
     Print (ScannedAgain "Ann" 1 "1970-01-01 02:00:00" "1970-01-01 01:00:00")].
Proof. split; reflexivity. Qed.

(** ** The stable sort *)

Section PySortedFacts.
Context {A K : Type} (key : A → K) (leb : K → K → bool).

Let le_key (a b : A) : Prop := leb (key a) (key b) = true.

Lemma insert_by_perm (x : A) (l : list A) : insert_by key leb x l ≡ₚ x :: l.
Proof.
  induction l as [|y l IH]; simpl; [done|].
  destruct (leb (key x) (key y)); [done|].
  rewrite IH. apply Permutation_swap.
Qed.

Lemma py_sorted_perm (l : list A) : py_sorted key leb l ≡ₚ l.
Proof.
  induction l as [|x l IH]; simpl; [done|].
  rewrite insert_by_perm. by rewrite IH.
Qed.

Hypothesis leb_total : ∀ a b, leb a b = false → leb b a = true.
Hypothesis leb_trans : ∀ a b c, leb a b = true → leb b c = true → leb a c = true.

Lemma insert_by_sorted (x : A) (l : list A) :
  StronglySorted le_key l → StronglySorted le_key (insert_by key leb x l).
Proof.
  induction 1 as [|y l Hl IH Hy]; simpl.
  - repeat constructor.
  - destruct (leb (key x) (key y)) eqn:E.
    + constructor; [by constructor|].
      constructor; [done|].
      eapply Forall_impl; [exact Hy|].
      intros z Hz. unfold le_key in *. eauto.
    + constructor; [done|].
      rewrite insert_by_perm. constructor; [|done].
      by apply leb_total.
Qed.

Lemma py_sorted_sorted (l : list A) : StronglySorted le_key (py_sorted key leb l).
Proof.
  induction l as [|x l IH]; simpl; [constructor|].
  by apply insert_by_sorted.
Qed.

(** Stability: the elements whose key is equivalent to [k] come out in
    the order they went in. *)
Lemma insert_by_stable (k : K) (x : A) (l : list A) :
  List.filter (same_key key leb k) (insert_by key leb x l) =
  List.filter (same_key key leb k) (x :: l).
Proof.
  induction l as [|y l IH]; [done|].
  cbn [insert_by]. destruct (leb (key x) (key y)) eqn:E; [done|].
  cbn [List.filter] in *. rewrite IH.
  destruct (same_key key leb k x) eqn:Ex, (same_key key leb k y) eqn:Ey; try done.
  unfold same_key in *.
  apply andb_true_iff in Ex as [Ex1 Ex2], Ey as [Ey1 Ey2].
  rewrite (leb_trans _ _ _ Ex1 Ey2) in E. done.
Qed.

Lemma py_sorted_stable (k : K) (l : list A) :
  List.filter (same_key key leb k) (py_sorted key leb l) = List.filter (same_key key leb k) l.
Proof.
  induction l as [|x l IH]; [done|].
  cbn [py_sorted foldr]. rewrite insert_by_stable.
  cbn [List.filter]. fold (py_sorted key leb l). by rewrite IH.
Qed.
End PySortedFacts.

Lemma Qle_bool_total (a b : Q) : Qle_bool a b = false → Qle_bool b a = true.
Proof.
  intros H. apply Qle_bool_iff. apply Qlt_le_weak, Qnot_le_lt.
  intros Hle. apply Qle_bool_iff in Hle. congruence.
Qed.

Lemma Qle_bool_trans (a b c : Q) :
  Qle_bool a b = true → Qle_bool b c = true → Qle_bool a c = true.
Proof.
  rewrite !Qle_bool_iff. apply Qle_trans.
Qed.

Lemma Zleb_total (a b : Z) : (a <=? b) = false → (b <=? a) = true.
Proof. lia. Qed.

Lemma Zleb_trans (a b c : Z) :
  (a <=? b) = true → (b <=? c) = true → (a <=? c) = true.
Proof. lia. Qed.

(** ** The monad *)

Lemma bind_unfold {A B} (m : M A) (f : A → M B) (w : World) :
  (m ≫= f) w =
  match res (m w) with
  | Ok a => Out (res (f a (world (m w)))) (world (f a (world (m w))))
              (trace (m w) ++ trace (f a (world (m w))))
  | Raise e => Out (Raise e) (world (m w)) (trace (m w))
  end.
Proof.
  unfold mbind, M_bind, bind. destruct (m w) as [[a|e] w1 t1]; cbn; [|done].
  by destruct (f a w1).
Qed.

Lemma for_each_cons {A} (body : A → M unit) (x : A) (l : list A) (w : World) :
  for_each body (x :: l) w =
  match res (body x w) with
  | Ok _ => Out (res (for_each body l (world (body x w))))
              (world (for_each body l (world (body x w))))
              (trace (body x w) ++ trace (for_each body l (world (body x w))))
  | Raise e => Out (Raise e) (world (body x w)) (trace (body x w))
  end.
Proof. cbn [for_each]. by rewrite bind_unfold. Qed.

(** An exception in a step ends the loop there. *)
Lemma for_each_app_raise {A} (body : A → M unit) (pre post : list A) (x : A)
    (w : World) (e : exn) :
  res (for_each body pre w) = Ok tt →
  res (body x (world (for_each body pre w))) = Raise e →
  for_each body (pre ++ x :: post) w =
  Out (Raise e) (world (body x (world (for_each body pre w))))
    (trace (for_each body pre w) ++ trace (body x (world (for_each body pre w)))).
Proof.
  revert w. induction pre as [|y pre IH]; intros w Hpre Hx.
  - cbn [app]. rewrite for_each_cons. cbn in Hx |- *. by rewrite Hx.
  - cbn [app]. rewrite for_each_cons. rewrite for_each_cons in Hpre, Hx |- *.
    destruct (res (body y w)) as [[]|e'] eqn:Hy; [|done].
    cbn in Hpre, Hx |- *. rewrite (IH _ Hpre Hx). cbn. by rewrite app_assoc.
Qed.

(** A relation between the world before and after that every step of a loop
    keeps, is kept by the loop. *)
Lemma for_each_world {A} (R : World → World → Prop) (body : A → M unit) :
  (∀ w, R w w) → (∀ w1 w2 w3, R w1 w2 → R w2 w3 → R w1 w3) →
  (∀ x w, R w (world (body x w))) →
  ∀ l w, R w (world (for_each body l w)).
Proof.
  intros Hrefl Htrans Hbody l. induction l as [|x l IH]; intros w; [apply Hrefl|].
  rewrite for_each_cons. destruct (res (body x w)); cbn; eauto.
Qed.

Lemma try_except_unfold {A} (body : M A) (handler : exn → M A) (w : World) :
  try_except body handler w =
  match res (body w) with
  | Ok a => body w
  | Raise e =>
      if is_Exception e
      then Out (res (handler e (world (body w)))) (world (handler e (world (body w))))
             (trace (body w) ++ trace (handler e (world (body w))))
      else body w
  end.
Proof.
  unfold try_except. destruct (body w) as [[a|e] w1 t1]; cbn; [done|].
  destruct (is_Exception e); [|done]. by destruct (handler e w1).
Qed.

(** ** One record of the device *)

Section Generic.
Context (fromtimestamp : Z → datetime) (io_fails : store_op → World → bool).

Abbreviation handle_rec' := (handle_rec fromtimestamp io_fails).
Abbreviation poll_once' := (poll_once fromtimestamp io_fails).
Abbreviation polls' := (polls fromtimestamp io_fails).
Abbreviation local_str := (device_epoch_to_local_str fromtimestamp).

(** The store calls, as the outcome they give. *)
Lemma is_epoch_processed_unfold (epoch : Z) (w : World) :
  is_epoch_processed io_fails epoch w =
  if io_fails (OpIsEpoch epoch) w
  then Out (Raise (OperationalError (OpIsEpoch epoch))) w []
  else Out (Ok (bool_decide (epoch ∈ processed w))) w [].
Proof. unfold is_epoch_processed, sql. by destruct (io_fails _ _). Qed.

Lemma mark_epoch_processed_unfold (epoch : Z) (w : World) :
  mark_epoch_processed io_fails epoch w =
  if io_fails (OpMarkEpoch epoch) w
  then Out (Raise (OperationalError (OpMarkEpoch epoch))) w []
  else if bool_decide (epoch ∈ processed w) then Out (Ok PyNone) w []
  else Out (Ok PyNone) (set_processed (λ s, {[epoch]} ∪ s) w)
         [Commit (OpMarkEpoch epoch)].
Proof.
  unfold mark_epoch_processed, sql. destruct (io_fails _ _); [done|].
  unfold mbind, M_bind, bind, get. by destruct (bool_decide _).
Qed.

Lemma is_user_marked_today_unfold (uid : Z) (daystr : string) (w : World) :
  is_user_marked_today io_fails uid daystr w =
  if io_fails (OpIsMarked uid daystr) w
  then Out (Raise (OperationalError (OpIsMarked uid daystr))) w []
  else Out (Ok (present w !! (daystr, uid))) w [].
Proof. unfold is_user_marked_today, sql. by destruct (io_fails _ _). Qed.

Lemma mark_user_present_unfold (uid : Z) (daystr s : string) (w : World) :
  mark_user_present io_fails uid daystr s w =
  if io_fails (OpMarkPresent uid daystr s) w
  then Out (Raise (OperationalError (OpMarkPresent uid daystr s))) w []
  else Out (Ok tt) (set_present <[(daystr, uid) := s]> w)
         [Commit (OpMarkPresent uid daystr s)].
Proof. unfold mark_user_present, sql. by destruct (io_fails _ _). Qed.

(** [load_users] reads: it changes and prints nothing, and what it returns
    depends on the roster file alone. *)
Lemma load_users_unfold (w : World) :
  load_users w = Out (res (load_users w)) w [].
Proof.
  unfold load_users. cbv [mbind M_bind bind get].
  destruct (users_csv w) as [rows|]; [|done].
  by destruct (read_rows ∅ rows).
Qed.

Lemma load_users_res (w w' : World) :
  users_csv w' = users_csv w → res (load_users w') = res (load_users w).
Proof.
  intros H. unfold load_users. cbv [mbind M_bind bind get]. rewrite H.
  destruct (users_csv w) as [rows|]; [|done].
  by destruct (read_rows ∅ rows).
Qed.

Lemma init_db_unfold (w : World) :
  init_db io_fails w =
  if io_fails OpInitDb w then Out (Raise (OperationalError OpInitDb)) w []
  else Out (Ok tt) w [Commit OpInitDb].
Proof. unfold init_db, sql. by destruct (io_fails _ _). Qed.

Lemma get_meta_unfold (k : string) (w : World) :
  get_meta io_fails k w =
  if io_fails (OpGetMeta k) w
  then Out (Raise (OperationalError (OpGetMeta k))) w []
  else Out (Ok (meta w !! k)) w [].
Proof. unfold get_meta, sql. by destruct (io_fails _ _). Qed.

Lemma set_meta_unfold (k v : string) (w : World) :
  set_meta io_fails k v w =
  if io_fails (OpSetMeta k v) w
  then Out (Raise (OperationalError (OpSetMeta k v))) w []
  else Out (Ok tt) (set_meta_table <[k := v]> w) [Commit (OpSetMeta k v)].
Proof. unfold set_meta, sql. by destruct (io_fails _ _). Qed.

Lemma update_csv_mark_present_unfold (filename : string) (uid : Z)
    (checkin_str : string) (w : World) :
  update_csv_mark_present filename uid checkin_str w =
  match files w !! filename with
  | None => Out (Raise (FileNotFoundError filename)) w []
  | Some rows =>
      let marked := mark_rows uid checkin_str rows in
      if marked.2
      then Out (Ok true) (set_files <[filename := marked.1]> w) [FileWrite filename]
      else Out (Ok false) w []
  end.
Proof.
  unfold update_csv_mark_present, mbind, M_bind, bind, get.
  destruct (files w !! filename) as [rows|]; [|done].
  cbv zeta. destruct (mark_rows uid checkin_str rows) as [tmp_rows []]; done.
Qed.

(** The body of the loop, case by case. *)
Lemma handle_rec_unfold (users : gmap Z user) (csvfile : string)
    (rec : Attendance) (w : World) :
  let epoch := py_int (timestamp rec) in
  let uid := user_id rec in
  let today := day_str_for_dt (fromtimestamp epoch) in
  let checkin_str := local_str epoch in
  let w1 := set_processed (λ s, {[epoch]} ∪ s) w in
  let t1 := [Commit (OpMarkEpoch epoch)] in
  handle_rec' users csvfile rec w =
  if io_fails (OpIsEpoch epoch) w
  then Out (Raise (OperationalError (OpIsEpoch epoch))) w []
  else if bool_decide (epoch ∈ processed w) then Out (Ok tt) w []
  else if io_fails (OpMarkEpoch epoch) w
  then Out (Raise (OperationalError (OpMarkEpoch epoch))) w []
  else
    match users !! uid with
    | None => Out (Ok tt) w1 (t1 ++ [Print (UnknownUser uid checkin_str)])
    | Some u =>
        if io_fails (OpIsMarked uid today) w1
        then Out (Raise (OperationalError (OpIsMarked uid today))) w1 t1
        else if truthy (present w !! (today, uid))
        then Out (Ok tt) w1
               (t1 ++ [Print (ScannedAgain (name u) uid checkin_str
                                (default "" (present w !! (today, uid))))])
        else
          match files w !! csvfile with
          | None => Out (Raise (FileNotFoundError csvfile)) w1 t1
          | Some rows =>
              let marked := mark_rows uid checkin_str rows in
              let w2 := if marked.2 then set_files <[csvfile := marked.1]> w1 else w1 in
              let t2 := t1 ++ (if marked.2 then [FileWrite csvfile] else []) in
              if io_fails (OpMarkPresent uid today checkin_str) w2
              then Out (Raise (OperationalError (OpMarkPresent uid today checkin_str))) w2 t2
              else Out (Ok tt) (set_present <[(today, uid) := checkin_str]> w2)
                     (t2 ++ [Commit (OpMarkPresent uid today checkin_str);
                             Print (MarkedPresent (name u) uid checkin_str csvfile)])
          end
    end.
Proof.
  intros epoch uid today checkin_str w1 t1.
  unfold handle_rec. fold epoch uid today checkin_str.
  rewrite bind_unfold, is_epoch_processed_unfold.
  destruct (io_fails (OpIsEpoch epoch) w) eqn:F1; cbn [res world trace]; [done|].
  destruct (bool_decide (epoch ∈ processed w)) eqn:Hseen; [done|].
  rewrite bind_unfold, mark_epoch_processed_unfold, Hseen.
  destruct (io_fails (OpMarkEpoch epoch) w) eqn:F2; cbn [res world trace]; [done|].
  fold w1 t1.
  destruct (users !! uid) as [u|] eqn:Hu; [|done].
  rewrite bind_unfold, is_user_marked_today_unfold.
  destruct (io_fails (OpIsMarked uid today) w1) eqn:F3; cbn [res world trace]; [done|].
  change (present w1) with (present w).
  destruct (truthy (present w !! (today, uid))) eqn:Htr; [done|].
  rewrite bind_unfold, update_csv_mark_present_unfold.
  change (files w1) with (files w).
  destruct (files w !! csvfile) as [rows|] eqn:Hf; cbn [res world trace]; [|done].
  cbv zeta.
  destruct (mark_rows uid checkin_str rows).2; cbn [res world trace];
    rewrite bind_unfold, mark_user_present_unfold;
    destruct (io_fails (OpMarkPresent _ _ _) _) eqn:F4;
    cbn [res world trace print emit]; done.
Qed.

End Generic.

(** ** What one record changes *)

Section Frames.
Context (fromtimestamp : Z → datetime) (io_fails : store_op → World → bool).

Abbreviation handle_rec' := (handle_rec fromtimestamp io_fails).
Abbreviation local_str := (device_epoch_to_local_str fromtimestamp).

Ltac handle_cases :=
  rewrite handle_rec_unfold; cbv zeta;
  repeat case_match; cbn [res world trace processed present files meta users_csv
                          set_processed set_present set_files];
  repeat match goal with
    | H : bool_decide _ = true |- _ => apply bool_decide_eq_true in H
    | H : bool_decide _ = false |- _ => apply bool_decide_eq_false in H
    end.

(** A record whose key is processed changes nothing and does nothing. *)
Lemma handle_rec_skip users csvfile rec w :
  event_key rec ∈ processed w →
  world (handle_rec' users csvfile rec w) = w ∧
  trace (handle_rec' users csvfile rec w) = [].
Proof.
  intros Hk. unfold event_key in Hk. rewrite handle_rec_unfold. cbv zeta.
  rewrite (bool_decide_true (_ ∈ processed w)) by done. by destruct (io_fails _ _).
Qed.

Lemma handle_rec_processed_mono users csvfile rec w :
  processed w ⊆ processed (world (handle_rec' users csvfile rec w)).
Proof. handle_cases; set_solver. Qed.

(** A record that was handled without an exception has its key processed. *)
Lemma handle_rec_ok_processed users csvfile rec w :
  res (handle_rec' users csvfile rec w) = Ok tt →
  event_key rec ∈ processed (world (handle_rec' users csvfile rec w)).
Proof.
  unfold event_key. handle_cases; intros Hres; try discriminate; set_solver.
Qed.

Lemma handle_rec_meta users csvfile rec w :
  meta (world (handle_rec' users csvfile rec w)) = meta w ∧
  users_csv (world (handle_rec' users csvfile rec w)) = users_csv w.
Proof. handle_cases; done. Qed.

(** Only the file handed to the poll is written, and it is not removed. *)
Lemma handle_rec_files_other users csvfile rec w (f : string) :
  f ≠ csvfile →
  files (world (handle_rec' users csvfile rec w)) !! f = files w !! f.
Proof.
  intros Hf. handle_cases; try done; by rewrite lookup_insert_ne.
Qed.

Lemma handle_rec_files_exist users csvfile rec w (f : string) :
  is_Some (files w !! f) →
  is_Some (files (world (handle_rec' users csvfile rec w)) !! f).
Proof.
  intros Hf. handle_cases; try done.
  all: destruct (decide (csvfile = f)) as [->|Hne];
    [rewrite lookup_insert_eq; eauto | by rewrite lookup_insert_ne].
Qed.

(** The present table changes at most at the day and the user of the
    record, and only where no marker with a text is stored. *)
Lemma handle_rec_present users csvfile rec w :
  let today := day_str_for_dt (fromtimestamp (event_key rec)) in
  (present (world (handle_rec' users csvfile rec w)) = present w) ∨
  (truthy (present w !! (today, user_id rec)) = false ∧
   is_Some (users !! user_id rec) ∧
   (event_key rec ∉ processed w) ∧
   present (world (handle_rec' users csvfile rec w)) =
     <[(today, user_id rec) := local_str (event_key rec)]> (present w)).
Proof.
  unfold event_key. handle_cases; try (by left).
  all: right; repeat split; eauto.
Qed.

End Frames.

(** ** A poll, and several polls *)

Section Polls.
Context (fromtimestamp : Z → datetime) (io_fails : store_op → World → bool).

Abbreviation handle_rec' := (handle_rec fromtimestamp io_fails).
Abbreviation poll_once' := (poll_once fromtimestamp io_fails).
Abbreviation polls' := (polls fromtimestamp io_fails).
Abbreviation local_str := (device_epoch_to_local_str fromtimestamp).

(** The handler of [poll_once] only prints: a poll is the loop over the
    sorted records, with the exception that ended it, if any, printed. *)
Lemma poll_once_unfold users csvfile (device : result (list Attendance)) w :
  poll_once' users csvfile device w =
  match device with
  | Ok recs =>
      let o := for_each (handle_rec' users csvfile)
                 (py_sorted timestamp Qle_bool recs) w in
      match res o with
      | Ok _ => o
      | Raise e =>
          if is_Exception e
          then Out (Ok tt) (world o) (trace o ++ [Print (PollError e)])
          else o
      end
  | Raise e =>
      if is_Exception e then Out (Ok tt) w [Print (PollError e)]
      else Out (Raise e) w []
  end.
Proof.
  unfold poll_once. rewrite try_except_unfold, bind_unfold.
  destruct device as [recs|e]; cbn [res world trace ret raise app].
  - destruct (for_each _ _ w) as [[[]|e] w1 t1]; cbn; [done|].
    by destruct (is_Exception e).
  - by destruct (is_Exception e).
Qed.

Lemma poll_once_world users csvfile device w :
  world (poll_once' users csvfile device w) =
  match device with
  | Ok recs => world (for_each (handle_rec' users csvfile)
                        (py_sorted timestamp Qle_bool recs) w)
  | Raise _ => w
  end.
Proof.
  rewrite poll_once_unfold. destruct device as [recs|e]; cbv zeta.
  - destruct (res _) as [|e]; [done|]. by destruct (is_Exception e).
  - by destruct (is_Exception e).
Qed.

Lemma polls_cons users csvfile device (ps : list poll) w :
  polls' ((users, csvfile, device) :: ps) w =
  match res (poll_once' users csvfile device w) with
  | Ok _ =>
      let w1 := world (poll_once' users csvfile device w) in
      Out (res (polls' ps w1)) (world (polls' ps w1))
        (trace (poll_once' users csvfile device w) ++ trace (polls' ps w1))
  | Raise e => Out (Raise e) (world (poll_once' users csvfile device w))
                 (trace (poll_once' users csvfile device w))
  end.
Proof. cbn [polls]. by rewrite bind_unfold. Qed.

(** A marker with a text stays as it is. *)
Lemma handle_rec_marker_kept users csvfile rec w (day : string) (uid : Z) (s : string) :
  present w !! (day, uid) = Some s → s ≠ "" →
  present (world (handle_rec' users csvfile rec w)) !! (day, uid) = Some s.
Proof.
  intros Hs Hne.
  destruct (handle_rec_present fromtimestamp io_fails users csvfile rec w)
    as [->|(Htr & _ & _ & ->)]; [done|].
  destruct (decide ((day_str_for_dt (fromtimestamp (event_key rec)), user_id rec)
                    = (day, uid))) as [Heq|Hneq].
  - rewrite Heq, Hs in Htr. cbn in Htr.
    apply negb_false_iff, String.eqb_eq in Htr. done.
  - by rewrite lookup_insert_ne.
Qed.

Lemma for_each_marker_kept users csvfile l w (day : string) (uid : Z) (s : string) :
  present w !! (day, uid) = Some s → s ≠ "" →
  present (world (for_each (handle_rec' users csvfile) l w)) !! (day, uid) = Some s.
Proof.
  intros Hs Hne. revert Hs.
  apply (for_each_world (λ w1 w2, present w1 !! (day, uid) = Some s →
                                  present w2 !! (day, uid) = Some s)); auto.
  intros. by apply handle_rec_marker_kept.
Qed.

End Polls.

(** ** Later worlds *)

Lemma keeps_store_bind {A B} (m : M A) (f : A → M B) :
  keeps_store m → (∀ a, keeps_store (f a)) → keeps_store (m ≫= f).
Proof.
  intros Hm Hf w. rewrite bind_unfold. destruct (Hm w) as [Hp Hq].
  destruct (res (m w)) as [a|e]; cbn [world]; [|done].
  destruct (Hf a (world (m w))) as [-> ->]. done.
Qed.

Lemma keeps_store_quiet {A} (m : M A) :
  (∀ w, world (m w) = w) → keeps_store m.
Proof. intros H w. by rewrite H. Qed.

Lemma keeps_store_sql (io_fails : store_op → World → bool) {A}
    (op : store_op) (body : M A) :
  keeps_store body → keeps_store (sql io_fails op body).
Proof. intros H w. unfold sql. destruct (io_fails op w); [done|apply H]. Qed.

Lemma keeps_store_day_check (io_fails : store_op → World → bool)
    (ROLLOVER_HOUR : Z) (now : datetime) (ls : loop_state) :
  keeps_store (day_check io_fails ROLLOVER_HOUR now ls).
Proof.
  assert (∀ k, keeps_store (get_meta io_fails k)) as Hget.
  { intros k. apply keeps_store_sql, keeps_store_bind; intros;
      by apply keeps_store_quiet. }
  assert (∀ k v, keeps_store (set_meta io_fails k v)) as Hset.
  { intros k v. apply keeps_store_sql, keeps_store_bind; [done|].
    intros. by apply keeps_store_quiet. }
  assert (∀ users day, keeps_store (make_daily_csv io_fails users day)) as Hmake.
  { intros users day. unfold make_daily_csv.
    repeat (apply keeps_store_bind; [|intros]); try done;
      by apply keeps_store_quiet. }
  assert (keeps_store load_users) as Hload.
  { intros w. by rewrite load_users_unfold. }
  unfold day_check, ensure_csv_for_today.
  apply keeps_store_bind.
  - apply keeps_store_bind; [apply Hget|]. intros current.
    apply keeps_store_bind; [by apply keeps_store_quiet|]. intros w.
    apply keeps_store_bind; [|intros; by apply keeps_store_quiet].
    destruct (_ || _); [|by apply keeps_store_quiet].
    apply keeps_store_bind; [apply Hmake|]. intros. by apply keeps_store_quiet.
  - intros [csvfile newday]. destruct (bool_decide _).
    + apply keeps_store_bind; [apply Hload|]. intros users.
      apply keeps_store_bind; intros; by apply keeps_store_quiet.
    + by apply keeps_store_quiet.
Qed.

Section Later.
Context (fromtimestamp : Z → datetime) (io_fails : store_op → World → bool).

Abbreviation later' := (later fromtimestamp io_fails).

Lemma later_trans w1 w2 w3 : later' w1 w2 → later' w2 w3 → later' w1 w3.
Proof.
  intros H12 H23.
  induction H23; [done|apply later_rec; auto|apply later_day_check; auto].
Qed.

Lemma later_for_each users csvfile l w w' :
  later' w w' →
  later' w (world (for_each (handle_rec fromtimestamp io_fails users csvfile) l w')).
Proof.
  revert w'. induction l as [|rec l IH]; intros w' H; [done|].
  rewrite for_each_cons.
  destruct (res _); cbn [world]; [apply IH|]; by apply later_rec.
Qed.

Lemma later_poll_once users csvfile device w w' :
  later' w w' →
  later' w (world (poll_once fromtimestamp io_fails users csvfile device w')).
Proof.
  intros H. rewrite poll_once_world. destruct device; [|done].
  by apply later_for_each.
Qed.

Lemma later_polls ps w w' :
  later' w w' → later' w (world (polls fromtimestamp io_fails ps w')).
Proof.
  revert w'. induction ps as [|[[users csvfile] device] ps IH]; intros w' H; [done|].
  rewrite polls_cons.
  destruct (res _); cbn [world]; [apply IH|]; by apply later_poll_once.
Qed.

Lemma later_loop_body ROLLOVER_HOUR now device ls w w' :
  later' w w' →
  later' w (world (loop_body fromtimestamp io_fails ROLLOVER_HOUR now device ls w')).
Proof.
  intros H. unfold loop_body. rewrite bind_unfold.
  pose proof (later_day_check _ _ _ _ ROLLOVER_HOUR now ls H) as Hd.
  destruct (res (day_check _ _ _ _ _)) as [ls'|e]; cbn [world]; [|done].
  rewrite bind_unfold.
  pose proof (later_poll_once (ls_users ls') (ls_csvfile ls') device _ _ Hd) as Hp.
  destruct (res (poll_once _ _ _ _ _ _)); cbn [world]; done.
Qed.

(** A start of the poller changes the world as a day check does. *)
Lemma later_startup ROLLOVER_HOUR now w w' :
  later' w w' → later' w (world (startup io_fails ROLLOVER_HOUR now w')).
Proof.
  intros H. unfold startup.
  rewrite bind_unfold, init_db_unfold.
  destruct (io_fails OpInitDb w'); cbn [res world trace]; [done|].
  rewrite bind_unfold, load_users_unfold. cbn [res world trace].
  destruct (res (load_users w')) as [users|e] eqn:Hres; cbn [world]; [|done].
  pose proof (later_day_check _ _ _ _ ROLLOVER_HOUR now
                (LoopState users "" (isoformat (active_day ROLLOVER_HOUR now))) H)
    as Hd.
  assert (world (day_check io_fails ROLLOVER_HOUR now
                   (LoopState users "" (isoformat (active_day ROLLOVER_HOUR now))) w')
          = world (ensure_csv_for_today io_fails ROLLOVER_HOUR users now w')) as Hw.
  { unfold day_check. rewrite bind_unfold. cbn [ls_users ls_daystr].
    destruct (ensure_csv_for_today io_fails ROLLOVER_HOUR users now w')
      as [[[csvfile newday]|e] w1 t1]; cbn [res world trace]; [|done].
    destruct (bool_decide _); [|done].
    rewrite bind_unfold, load_users_unfold. cbn [res world trace].
    by destruct (res (load_users w1)). }
  rewrite Hw in Hd.
  rewrite bind_unfold.
  destruct (ensure_csv_for_today io_fails ROLLOVER_HOUR users now w')
    as [[[csvfile newday]|e] w1 t1]; cbn [res world trace] in Hd |- *; done.
Qed.

(** Processed keys stay processed. *)
Lemma later_processed_mono w w' : later' w w' → processed w ⊆ processed w'.
Proof.
  induction 1 as [|w w' users csvfile rec H IH|w w' rh now ls H IH]; [done| |].
  - etrans; [exact IH|]. apply handle_rec_processed_mono.
  - destruct (keeps_store_day_check io_fails rh now ls w') as [-> _]. done.
Qed.

(** A marker with a text stays as it is. *)
Lemma later_marker_kept w w' (day : string) (uid : Z) (s : string) :
  later' w w' → present w !! (day, uid) = Some s → s ≠ "" →
  present w' !! (day, uid) = Some s.
Proof.
  intros H Hs Hne.
  induction H as [|w w' users csvfile rec H IH|w w' rh now ls H IH]; [done| |].
  - apply handle_rec_marker_kept; auto.
  - destruct (keeps_store_day_check io_fails rh now ls w') as [_ ->]. auto.
Qed.

End Later.

(** ** At most once *)

Lemma nmarks_app (k : Z) (t1 t2 : list action) :
  nmarks k (t1 ++ t2) = (nmarks k t1 + nmarks k t2)%nat.
Proof. unfold nmarks. by rewrite List.filter_app, length_app. Qed.

Lemma marks_once_seq (k : Z) (w w1 w2 : World) (t1 t2 : list action) :
  processed w ⊆ processed w1 →
  (nmarks k t1 ≤ if bool_decide (k ∈ processed w) then 0 else 1)%nat →
  ((1 ≤ nmarks k t1)%nat → k ∈ processed w1) →
  processed w1 ⊆ processed w2 →
  (nmarks k t2 ≤ if bool_decide (k ∈ processed w1) then 0 else 1)%nat →
  ((1 ≤ nmarks k t2)%nat → k ∈ processed w2) →
  processed w ⊆ processed w2 ∧
  (nmarks k (t1 ++ t2) ≤ if bool_decide (k ∈ processed w) then 0 else 1)%nat ∧
  ((1 ≤ nmarks k (t1 ++ t2))%nat → k ∈ processed w2).
Proof.
  intros M1 B1 I1 M2 B2 I2. rewrite nmarks_app.
  split; [set_solver|].
  destruct (decide (k ∈ processed w)) as [Hk|Hk].
  - rewrite (bool_decide_true (k ∈ processed w)) in * by done.
    rewrite (bool_decide_true (k ∈ processed w1)) in B2 by set_solver.
    split; [lia|]. intros _. set_solver.
  - rewrite (bool_decide_false (k ∈ processed w)) in * by done.
    destruct (decide (k ∈ processed w1)) as [Hk1|Hk1].
    + rewrite (bool_decide_true (k ∈ processed w1)) in B2 by done.
      split; [lia|]. intros _. set_solver.
    + rewrite (bool_decide_false (k ∈ processed w1)) in B2 by done.
      assert (nmarks k t1 = 0)%nat as -> by
        (destruct (nmarks k t1); [done|]; exfalso; apply Hk1, I1; lia).
      split; [lia|]. intros H. apply I2. lia.
Qed.

Lemma marks_once_bind (k : Z) {A B} (m : M A) (f : A → M B) :
  marks_once k m → (∀ a, marks_once k (f a)) → marks_once k (m ≫= f).
Proof.
  intros Hm Hf w. rewrite bind_unfold.
  destruct (Hm w) as (M1 & B1 & I1).
  destruct (res (m w)) as [a|e]; cbn [res world trace]; [|done].
  destruct (Hf a (world (m w))) as (M2 & B2 & I2).
  by apply (marks_once_seq k w (world (m w))).
Qed.

Lemma marks_once_quiet (k : Z) {A} (m : M A) :
  (∀ w, world (m w) = w ∧ nmarks k (trace (m w)) = 0%nat) → marks_once k m.
Proof.
  intros H w. destruct (H w) as [-> ->].
  split; [done|]. split; [lia|lia].
Qed.

Lemma marks_once_try (k : Z) {A} (body : M A) (handler : exn → M A) :
  marks_once k body → (∀ e, marks_once k (handler e)) →
  marks_once k (try_except body handler).
Proof.
  intros Hb Hh w. rewrite try_except_unfold.
  destruct (Hb w) as (M1 & B1 & I1).
  destruct (res (body w)) as [a|e]; [done|].
  destruct (is_Exception e); [|done]. cbn [res world trace].
  destruct (Hh e (world (body w))) as (M2 & B2 & I2).
  by apply (marks_once_seq k w (world (body w))).
Qed.

Lemma marks_once_for_each (k : Z) {A} (body : A → M unit) (l : list A) :
  (∀ x, marks_once k (body x)) → marks_once k (for_each body l).
Proof.
  intros Hbody. induction l as [|x l IH]; cbn [for_each].
  - by apply marks_once_quiet.
  - apply marks_once_bind; auto.
Qed.

Section AtMostOnce.
Context (fromtimestamp : Z → datetime) (io_fails : store_op → World → bool).

Lemma marks_once_handle_rec (k : Z) users csvfile rec :
  marks_once k (handle_rec fromtimestamp io_fails users csvfile rec).
Proof.
  intros w. split; [apply handle_rec_processed_mono|].
  rewrite handle_rec_unfold; cbv zeta.
  repeat case_match;
    cbn [res world trace processed set_processed set_present set_files
         nmarks List.filter is_mark app length];
    repeat match goal with
      | |- context [?a =? ?b] => destruct (Z.eqb_spec a b); subst
      end;
    cbn [length];
    repeat match goal with
      | H : bool_decide _ = true |- _ => apply bool_decide_eq_true in H
      | H : bool_decide _ = false |- _ => apply bool_decide_eq_false in H
      end;
    (split; [try done; try lia|intros; try done; try lia; try set_solver]).
Qed.

Lemma marks_once_poll_once (k : Z) users csvfile device :
  marks_once k (poll_once fromtimestamp io_fails users csvfile device).
Proof.
  unfold poll_once. apply marks_once_try.
  - apply marks_once_bind.
    + destruct device; by apply marks_once_quiet.
    + intros recs. apply marks_once_for_each. intros rec.
      apply marks_once_handle_rec.
  - intros e. by apply marks_once_quiet.
Qed.

Lemma marks_once_polls (k : Z) (ps : list poll) :
  marks_once k (polls fromtimestamp io_fails ps).
Proof.
  induction ps as [|[[users csvfile] device] ps IH]; cbn [polls].
  - by apply marks_once_quiet.
  - apply marks_once_bind; [apply marks_once_poll_once|done].
Qed.

End AtMostOnce.

Lemma local_str_nonempty (fromtimestamp : Z → datetime) (epoch : Z) :
  device_epoch_to_local_str fromtimestamp epoch ≠ "".
Proof. unfold device_epoch_to_local_str, strftime, isoformat, pad4. done. Qed.

(** Whatever handling a record does starts with the marking of its key. *)
Lemma handle_rec_trace_shape fromtimestamp io_fails users csvfile rec w :
  let t := trace (handle_rec fromtimestamp io_fails users csvfile rec w) in
  t = [] ∨ ∃ t', t = Commit (OpMarkEpoch (event_key rec)) :: t'.
Proof.
  intros t. subst t. unfold event_key. rewrite handle_rec_unfold; cbv zeta.
  repeat case_match; cbn [trace app]; eauto.
Qed.

(** A record for a user and a day that already have a marker with a text
    writes neither the store's present table nor a file. *)
Lemma handle_rec_already fromtimestamp io_fails users csvfile rec w (s : string) :
  let o := handle_rec fromtimestamp io_fails users csvfile rec w in
  present w !! (day_str_for_dt (fromtimestamp (event_key rec)), user_id rec) = Some s →
  s ≠ "" →
  present (world o) = present w ∧ files (world o) = files w ∧
  Forall (λ a, is_store_write a = false ∧ is_ledger_write a = false) (trace o).
Proof.
  intros o Hs Hne. subst o. unfold event_key in Hs.
  assert (truthy (Some s) = true) as Htr.
  { cbn. apply negb_true_iff, String.eqb_neq. done. }
  rewrite handle_rec_unfold; cbv zeta. rewrite Hs, Htr.
  repeat case_match; cbn [res world trace present files set_processed app];
    repeat split; repeat constructor.
Qed.

(** ** The day check *)

Lemma absent_rows_ids (users : gmap Z user) :
  r_id <$> absent_rows users = (py_sorted fst Z.leb (map_to_list users)).*1.
Proof.
  unfold absent_rows. rewrite <- list_fmap_compose.
  apply list_fmap_ext. by intros _ [uid u] _.
Qed.

Lemma sorted_nodup_strict (l : list Z) :
  StronglySorted Z.le l → NoDup l → StronglySorted Z.lt l.
Proof.
  induction 1 as [|x l Hl IH Hx]; intros Hnd; [constructor|].
  apply NoDup_cons in Hnd as [Hnotin Hnd].
  constructor; [by apply IH|].
  apply Forall_forall. intros y Hy.
  rewrite Forall_forall in Hx. specialize (Hx y Hy).
  assert (x ≠ y) by (intros ->; done). lia.
Qed.

(** The rows of a fresh file: the ids ascend strictly, so no id occurs
    twice, and the rows are the Absent rows of the users of the roster. *)
Lemma absent_rows_spec (users : gmap Z user) :
  StronglySorted Z.lt (r_id <$> absent_rows users) ∧
  (∀ r, r ∈ absent_rows users ↔
        ∃ u, users !! r_id r = Some u ∧ r = Row (r_id r) (name u) "Absent" "").
Proof.
  split.
  - rewrite absent_rows_ids. apply sorted_nodup_strict.
    + apply (StronglySorted_fmap fst (λ a b : Z * user, (a.1 <=? b.1) = true)).
      * intros x y H. lia.
      * apply py_sorted_sorted; [apply Zleb_total|apply Zleb_trans].
    + rewrite (py_sorted_perm fst Z.leb). apply NoDup_fst_map_to_list.
  - intros r. unfold absent_rows. rewrite list_elem_of_fmap. split.
    + intros ([uid u] & -> & Hin). rewrite (py_sorted_perm fst Z.leb) in Hin.
      apply elem_of_map_to_list in Hin. exists u. done.
    + intros (u & Hu & Hr). exists (r_id r, u). split; [done|].
      rewrite (py_sorted_perm fst Z.leb). by apply elem_of_map_to_list.
Qed.

Lemma make_daily_csv_unfold (users : gmap Z user) (day : string) (w : World) :
  make_daily_csv reliable users day w =
  Out (Ok (attendance_file day))
    (set_meta_table <[CURRENT_CSV_DATE := day]>
       (set_files <[attendance_file day := absent_rows users]> w))
    [FileWrite (attendance_file day); Commit (OpSetMeta CURRENT_CSV_DATE day);
     Print (Created (attendance_file day))].
Proof. reflexivity. Qed.

Lemma ensure_csv_for_today_unfold (ROLLOVER_HOUR : Z) (users : gmap Z user)
    (now : datetime) (w : World) :
  let daystr := isoformat (active_day ROLLOVER_HOUR now) in
  let csvfile := attendance_file daystr in
  ensure_csv_for_today reliable ROLLOVER_HOUR users now w =
  if bool_decide (meta w !! CURRENT_CSV_DATE ≠ Some daystr)
     || negb (bool_decide (is_Some (files w !! csvfile)))
  then Out (Ok (csvfile, daystr))
         (set_meta_table <[CURRENT_CSV_DATE := daystr]>
            (set_files <[csvfile := absent_rows users]> w))
         [FileWrite csvfile; Commit (OpSetMeta CURRENT_CSV_DATE daystr);
          Print (Created csvfile)]
  else Out (Ok (csvfile, daystr)) w [].
Proof.
  intros daystr csvfile.
  cbv [ensure_csv_for_today mbind M_bind bind get_meta sql reliable get mret M_ret ret].
  fold daystr csvfile.
  destruct (bool_decide _ || negb _); reflexivity.
Qed.

(** ** First seen *)

Lemma strongly_sorted_impl {A} (R1 R2 : A → A → Prop) (l : list A) :
  (∀ x y, R1 x y → R2 x y) → StronglySorted R1 l → StronglySorted R2 l.
Proof.
  intros HR. induction 1 as [|x l Hl IH Hx]; constructor; [done|].
  eapply Forall_impl; [exact Hx|]. intros y. apply HR.
Qed.

Lemma filter_strongly_sorted {A} (R : A → A → Prop) (f : A → bool) (l : list A) :
  StronglySorted R l → StronglySorted R (List.filter f l).
Proof.
  induction 1 as [|x l Hl IH Hx]; cbn; [constructor|].
  destruct (f x); [|done]. constructor; [done|].
  apply Forall_forall. intros y Hy. rewrite Forall_forall in Hx.
  apply Hx. apply list_elem_of_In in Hy. apply filter_In in Hy as [Hy _].
  by apply list_elem_of_In.
Qed.

Lemma fresh_recs_elem (seen : gset Z) (l : list Attendance) (rec : Attendance) :
  rec ∈ fresh_recs seen l → rec ∈ l.
Proof.
  revert seen. induction l as [|x l IH]; intros seen; cbn; [done|].
  destruct (bool_decide _).
  - intros H. right. by eapply IH.
  - intros [->|H]%elem_of_cons; [left|right]. by eapply IH.
Qed.

Lemma fresh_recs_strongly_sorted (R : Attendance → Attendance → Prop)
    (seen : gset Z) (l : list Attendance) :
  StronglySorted R l → StronglySorted R (fresh_recs seen l).
Proof.
  intros Hl. revert seen.
  induction Hl as [|x l Hl IH Hx]; intros seen; cbn; [constructor|].
  destruct (bool_decide _); [apply IH|].
  constructor; [apply IH|].
  apply Forall_forall. intros y Hy. rewrite Forall_forall in Hx.
  apply Hx. by eapply fresh_recs_elem.
Qed.

Section FirstSeen.
Context (fromtimestamp : Z → datetime).
Context (users : gmap Z user) (csvfile : string).

Abbreviation step := (handle_rec fromtimestamp reliable users csvfile).
Abbreviation local_str := (device_epoch_to_local_str fromtimestamp).
Abbreviation day_of rec := (day_str_for_dt (fromtimestamp (event_key rec))).

Ltac reliable_cases :=
  rewrite handle_rec_unfold; cbv zeta; unfold reliable;
  repeat case_match;
  cbn [res world trace processed present files meta users_csv
       set_processed set_present set_files];
  repeat match goal with
    | H : bool_decide _ = true |- _ => apply bool_decide_eq_true in H
    | H : bool_decide _ = false |- _ => apply bool_decide_eq_false in H
    end.

(** With a store that works and the file in place, a record is handled
    without an exception, and its key is processed afterwards. *)
Lemma step_ok rec w :
  is_Some (files w !! csvfile) →
  res (step rec w) = Ok tt ∧
  processed (world (step rec w)) = {[event_key rec]} ∪ processed w.
Proof.
  intros [rows Hf]. unfold event_key. reliable_cases; try done.
  all: split; [done|].
  all: apply set_eq; intros x; rewrite elem_of_union, elem_of_singleton.
  all: split; [by right|]; by intros [->|?].
Qed.

Lemma for_each_step_ok l w :
  is_Some (files w !! csvfile) → res (for_each step l w) = Ok tt.
Proof.
  revert w. induction l as [|rec l IH]; intros w Hf; [done|].
  rewrite for_each_cons. destruct (step_ok rec w Hf) as [-> _].
  cbn [res]. apply IH. by apply handle_rec_files_exist.
Qed.

(** What the loop marks: the records of [fresh_recs], in their order. *)
Lemma for_each_marks_fresh l w :
  is_Some (files w !! csvfile) →
  List.filter is_any_mark (trace (for_each step l w)) =
  (λ r, Commit (OpMarkEpoch (event_key r))) <$> fresh_recs (processed w) l.
Proof.
  revert w. induction l as [|rec l IH]; intros w Hf; [done|].
  rewrite for_each_cons. destruct (step_ok rec w Hf) as [Hres Hproc].
  rewrite Hres. cbn [trace fresh_recs]. rewrite List.filter_app.
  rewrite IH by (by apply handle_rec_files_exist).
  rewrite Hproc.
  destruct (bool_decide (event_key rec ∈ processed w)) eqn:E.
  - apply bool_decide_eq_true in E.
    destruct (handle_rec_skip fromtimestamp reliable users csvfile rec w E) as [_ ->].
    cbn. f_equal. f_equal.
    apply set_eq; intros x; rewrite elem_of_union, elem_of_singleton.
    split; [by intros [->|?]|by right].
  - apply bool_decide_eq_false in E.
    assert (List.filter is_any_mark (trace (step rec w)) =
              [Commit (OpMarkEpoch (event_key rec))]) as ->; [|done].
    destruct Hf as [rows Hf]. unfold event_key in *.
    rewrite handle_rec_unfold; cbv zeta; unfold reliable.
    rewrite (bool_decide_false (_ ∈ processed w)) by done.
    repeat case_match; cbn; done.
Qed.

(** The first record of the user and the day that gets past the check of
    its key sets the marker. *)
Lemma for_each_first_seen (P : Z) (D : string) l :
  ∀ w e0,
    is_Some (files w !! csvfile) →
    truthy (present w !! (D, P)) = false →
    head (List.filter (qualifies fromtimestamp users P D)
            (fresh_recs (processed w) l)) = Some e0 →
    present (world (for_each step l w)) !! (D, P) = Some (local_str (event_key e0)).
Proof.
  induction l as [|rec l IH]; intros w e0 Hf Htr Hhead; [done|].
  rewrite for_each_cons. destruct (step_ok rec w Hf) as [Hres Hproc].
  rewrite Hres. cbn [world].
  assert (is_Some (files (world (step rec w)) !! csvfile)) as Hf'
    by (by apply handle_rec_files_exist).
  cbn [fresh_recs] in Hhead.
  destruct (bool_decide (event_key rec ∈ processed w)) eqn:E.
  - apply bool_decide_eq_true in E.
    destruct (handle_rec_skip fromtimestamp reliable users csvfile rec w E) as [Hw _].
    rewrite Hw. by apply IH.
  - apply bool_decide_eq_false in E. cbn [List.filter] in Hhead.
    destruct (qualifies fromtimestamp users P D rec) eqn:Hq.
    + injection Hhead as <-.
      apply bool_decide_eq_true in Hq as (Hu & [u Hin] & Hd).
      apply for_each_marker_kept; [|apply local_str_nonempty].
      destruct Hf as [rows Hf]. unfold event_key in *.
      rewrite handle_rec_unfold; cbv zeta; unfold reliable.
      rewrite (bool_decide_false (_ ∈ processed w)) by done.
      rewrite Hu, Hin, Hd, Htr, Hf.
      destruct (mark_rows _ _ _).2; cbn; by rewrite lookup_insert_eq.
    + apply IH; [done| |by rewrite Hproc].
      destruct (handle_rec_present fromtimestamp reliable users csvfile rec w)
        as [->|(_ & Hin & _ & ->)]; [done|].
      rewrite lookup_insert_ne; [done|].
      intros [= Hd Hu]. apply bool_decide_eq_false in Hq. apply Hq.
      split; [done|]. split; [by rewrite <- Hu|done].
Qed.

End FirstSeen.

(** ** The file of the poll is in place *)

(** In the loop of [main_loop] the poll comes after the day check, which
    leaves the file it hands to the poll in place. *)
Lemma day_check_file_exists (ROLLOVER_HOUR : Z) (now : datetime)
    (ls ls' : loop_state) (w : World) :
  let o := day_check reliable ROLLOVER_HOUR now ls w in
  res o = Ok ls' →
  is_Some (files (world o) !! ls_csvfile ls').
Proof.
  intros o. subst o. unfold day_check. rewrite bind_unfold.
  rewrite ensure_csv_for_today_unfold. cbv zeta.
  set (daystr := isoformat (active_day ROLLOVER_HOUR now)).
  set (csvfile := attendance_file daystr).
  set (w1 := set_meta_table <[CURRENT_CSV_DATE:=daystr]>
               (set_files <[csvfile:=absent_rows (ls_users ls)]> w)).
  assert (is_Some (files w1 !! csvfile)) as Hw1.
  { subst w1. cbn [files set_meta_table set_files].
    rewrite lookup_insert_eq. eauto. }
  destruct (bool_decide (meta w !! CURRENT_CSV_DATE ≠ Some daystr)) eqn:E1;
    [|destruct (bool_decide (is_Some (files w !! csvfile))) eqn:E2];
    cbn [orb negb res world trace].
  - destruct (bool_decide (daystr ≠ ls_daystr ls)).
    + rewrite bind_unfold.
      assert (world (load_users w1) = w1) as Hl.
      { by rewrite load_users_unfold. }
      destruct (res (load_users w1)) as [users|e]; cbn; [|done].
      intros [= <-]. cbn. by rewrite Hl.
    + cbn. intros [= <-]. done.
  - apply bool_decide_eq_true in E2.
    destruct (bool_decide (daystr ≠ ls_daystr ls)).
    + rewrite bind_unfold.
      assert (world (load_users w) = w) as Hl.
      { by rewrite load_users_unfold. }
      destruct (res (load_users w)) as [users|e]; cbn; [|done].
      intros [= <-]. cbn. by rewrite Hl.
    + cbn. intros [= <-]. done.
  - destruct (bool_decide (daystr ≠ ls_daystr ls)).
    + rewrite bind_unfold.
      assert (world (load_users w1) = w1) as Hl.
      { by rewrite load_users_unfold. }
      destruct (res (load_users w1)) as [users|e]; cbn; [|done].
      intros [= <-]. cbn. by rewrite Hl.
    + cbn. intros [= <-]. done.
Qed.

(** * The claims *)

(** C1 — At-most-once application. Whatever store calls fail and whatever
    roster, file and device reply each poll has: over any number of polls
    from any state a key is marked processed at most once, and whatever
    handling a record does starts with the marking of its key, so the
    presence logic runs at most once per key; and once
    [mark_epoch_processed] has returned for the key [k], then in every
    later world — after the rest of the batch, further polls, day checks,
    restarts — [k] is still processed, [is_epoch_processed] does not answer
    false for it, and a record with the key [k] is skipped: the store and
    the files, so every first_checkin_local, stay as they are and nothing
    is done. *)
Theorem at_most_once_application (fromtimestamp : Z → datetime)
    (io_fails : store_op → World → bool) (k : Z) (w w' : World)
    (users : gmap Z user) (csvfile : string) (rec : Attendance) :
  let marked := mark_epoch_processed io_fails k w in
  let again := handle_rec fromtimestamp io_fails users csvfile rec w' in
  res marked = Ok PyNone →
  later fromtimestamp io_fails (world marked) w' →
  event_key rec = k →
  (∀ w0 ps0, (nmarks k (trace (polls fromtimestamp io_fails ps0 w0)) ≤ 1)%nat) ∧
  (∀ users0 csvfile0 rec0 w0,
     let t := trace (handle_rec fromtimestamp io_fails users0 csvfile0 rec0 w0) in
     t = [] ∨ ∃ t', t = Commit (OpMarkEpoch (event_key rec0)) :: t') ∧
  k ∈ processed w' ∧
  res (is_epoch_processed io_fails k w') ≠ Ok false ∧
  world again = w' ∧ trace again = [].
Proof.
  intros marked again Hmarked Hlater Hk.
  assert (k ∈ processed (world marked)) as Hin.
  { subst marked. rewrite mark_epoch_processed_unfold in Hmarked |- *.
    destruct (io_fails _ _); [done|].
    destruct (bool_decide (k ∈ processed w)) eqn:E; cbn.
    - by apply bool_decide_eq_true in E.
    - set_solver. }
  assert (k ∈ processed w') as Hin'.
  { by apply (later_processed_mono _ _ _ _ Hlater). }
  split; [|split; [|split; [done|split]]].
  - intros w0 ps0.
    destruct (marks_once_polls fromtimestamp io_fails k ps0 w0) as (_ & B & _).
    destruct (bool_decide _) in B; lia.
  - intros users0 csvfile0 rec0 w0. apply handle_rec_trace_shape.
  - rewrite is_epoch_processed_unfold. destruct (io_fails _ _); [done|].
    rewrite (bool_decide_true (k ∈ processed w')) by done. done.
  - apply handle_rec_skip. by rewrite Hk.
Qed.

Lemma at_most_once_application_witness :
  let rec := Rec 1 (3600 # 1) in
  let ps := [(sample_roster, sample_csv, Ok [Rec 2 (7200 # 1); rec])] in
  let marked := mark_epoch_processed reliable 3600 sample_world in
  let w' := world (polls utc_fromtimestamp reliable ps (world marked)) in
  let again := handle_rec utc_fromtimestamp reliable sample_roster sample_csv rec w' in
  res marked = Ok PyNone ∧ event_key rec = 3600 ∧
  3600 ∈ processed w' ∧ world again = w' ∧ trace again = [].
Proof.
  intros rec ps marked w' again.
  assert (res marked = Ok PyNone) as H1 by reflexivity.
  assert (event_key rec = 3600) as H2 by reflexivity.
  assert (later utc_fromtimestamp reliable (world marked) w') as HL.
  { apply later_polls, later_now. }
  destruct (at_most_once_application utc_fromtimestamp reliable 3600
              sample_world w' sample_roster sample_csv rec H1 HL H2)
    as (_ & _ & H3 & _ & H4 & H5).
  repeat split; assumption.
Defined.

(** C2 — First-seen invariant. A poll handles the records in ascending
    order of their timestamps, records with equal timestamps in the order
    of the reply; the records it applies are those of [fresh_recs]. With a
    store that works and the file of the poll in place, when the user [P]
    has no marker for the day [D] before the poll and [e0] is the first
    applied record of [P], a user of the roster, on [D], then after the
    poll the marker of [P] and [D] holds the time of [e0]; no applied
    record of [P] on [D] is earlier than [e0]; and a later record of [P] on
    [D] leaves the present table as it is and, when its key is new, takes
    the branch that prints that the user is already marked. *)
Theorem first_seen_invariant (fromtimestamp : Z → datetime)
    (users : gmap Z user) (csvfile : string) (recs : list Attendance)
    (w : World) (P : Z) (D : string) (e0 : Attendance) (u : user) :
  let sorted_recs := py_sorted timestamp Qle_bool recs in
  let applied := fresh_recs (processed w) sorted_recs in
  let o := poll_once fromtimestamp reliable users csvfile (Ok recs) w in
  is_Some (files w !! csvfile) →
  present w !! (D, P) = None →
  users !! P = Some u →
  head (List.filter (qualifies fromtimestamp users P D) applied) = Some e0 →
  (StronglySorted (λ a b, (timestamp a <= timestamp b)%Q) sorted_recs ∧
   sorted_recs ≡ₚ recs ∧
   (∀ q, List.filter (same_key timestamp Qle_bool q) sorted_recs =
         List.filter (same_key timestamp Qle_bool q) recs)) ∧
  List.filter is_any_mark (trace o) =
    (λ r, Commit (OpMarkEpoch (event_key r))) <$> applied ∧
  present (world o) !! (D, P) =
    Some (device_epoch_to_local_str fromtimestamp (event_key e0)) ∧
  (∀ e, e ∈ List.filter (qualifies fromtimestamp users P D) applied →
        (timestamp e0 <= timestamp e)%Q) ∧
  (∀ rec,
     user_id rec = P →
     day_str_for_dt (fromtimestamp (event_key rec)) = D →
     let o2 := handle_rec fromtimestamp reliable users csvfile rec (world o) in
     present (world o2) = present (world o) ∧
     trace o2 =
       (if bool_decide (event_key rec ∈ processed (world o)) then []
        else [Commit (OpMarkEpoch (event_key rec));
              Print (ScannedAgain (name u) P
                       (device_epoch_to_local_str fromtimestamp (event_key rec))
                       (device_epoch_to_local_str fromtimestamp (event_key e0)))])).
Proof.
  intros sorted_recs applied o Hf Hnone Hu Hhead.
  assert (StronglySorted (λ a b, (timestamp a <= timestamp b)%Q) sorted_recs)
    as Hsorted.
  { apply (strongly_sorted_impl
             (λ a b : Attendance, Qle_bool (timestamp a) (timestamp b) = true)).
    - intros x y H. by apply Qle_bool_iff.
    - apply py_sorted_sorted; [apply Qle_bool_total|apply Qle_bool_trans]. }
  assert (o = for_each (handle_rec fromtimestamp reliable users csvfile)
                sorted_recs w) as Ho.
  { subst o. rewrite poll_once_unfold. cbv zeta. fold sorted_recs.
    by rewrite for_each_step_ok. }
  assert (present (world o) !! (D, P) =
            Some (device_epoch_to_local_str fromtimestamp (event_key e0))) as Hseen.
  { rewrite Ho. apply for_each_first_seen; [done|by rewrite Hnone|done]. }
  split; [split; [done|split]|split; [|split; [done|split]]].
  - apply py_sorted_perm.
  - intros q. apply py_sorted_stable. apply Qle_bool_trans.
  - rewrite Ho. by apply for_each_marks_fresh.
  - intros e He.
    pose proof (filter_strongly_sorted _ (qualifies fromtimestamp users P D) _
                  (fresh_recs_strongly_sorted _ (processed w) _ Hsorted)) as Hs.
    fold applied in Hs.
    destruct (List.filter (qualifies fromtimestamp users P D) applied)
      as [|x rest] eqn:El; [done|].
    injection Hhead as ->.
    apply elem_of_cons in He as [->|He]; [apply Qle_refl|].
    apply StronglySorted_inv in Hs as [_ Hall].
    rewrite Forall_forall in Hall. by apply Hall.
  - intros rec HP HD o2.
    destruct (handle_rec_already fromtimestamp reliable users csvfile rec (world o)
                (device_epoch_to_local_str fromtimestamp (event_key e0)))
      as (Hp & _ & _).
    { by rewrite HD, HP. }
    { apply local_str_nonempty. }
    split; [done|].
    subst o2. rewrite handle_rec_unfold; cbv zeta; unfold reliable.
    fold (event_key rec). rewrite HP, HD, Hu, Hseen.
    destruct (bool_decide _); [done|]. cbn. done.
Qed.

Lemma first_seen_invariant_witness :
  let recs := [Rec 2 (30600 # 1); Rec 1 (27000 # 1); Rec 2 (28800 # 1)] in
  let o := poll_once utc_fromtimestamp reliable sample_roster sample_csv
             (Ok recs) sample_world in
  (is_Some (files sample_world !! sample_csv) ∧
   present sample_world !! ("1970-01-01", 2) = None ∧
   head (List.filter (qualifies utc_fromtimestamp sample_roster 2 "1970-01-01")
           (fresh_recs (processed sample_world)
              (py_sorted timestamp Qle_bool recs))) = Some (Rec 2 (28800 # 1))) ∧
  py_sorted timestamp Qle_bool recs =
    [Rec 1 (27000 # 1); Rec 2 (28800 # 1); Rec 2 (30600 # 1)] ∧
  present (world o) !! ("1970-01-01", 2) = Some "1970-01-01 08:00:00".
Proof.
  intros recs o.
  assert (is_Some (files sample_world !! sample_csv)) as H1 by (eexists; reflexivity).
  assert (present sample_world !! ("1970-01-01", 2) = None) as H2 by reflexivity.
  assert (sample_roster !! 2 = Some bob) as H3 by reflexivity.
  assert (head (List.filter (qualifies utc_fromtimestamp sample_roster 2 "1970-01-01")
                  (fresh_recs (processed sample_world)
                     (py_sorted timestamp Qle_bool recs))) = Some (Rec 2 (28800 # 1)))
    as H4 by reflexivity.
  destruct (first_seen_invariant utc_fromtimestamp sample_roster sample_csv recs
              sample_world 2 "1970-01-01" (Rec 2 (28800 # 1)) bob H1 H2 H3 H4)
    as (_ & _ & H5 & _).
  split; [split; [exact H1|split; [exact H2|exact H4]]|].
  split; [reflexivity|exact H5].
Defined.

(** C3, as claimed, fails: for a user of the roster seen for the first time
    on a day, the file is written at position 1 of the trace and the marker
    is written to the store at position 2, so it is not the case that every
    store write comes before every ledger write. *)
Lemma store_write_first_counterexample :
  let t := trace (handle_rec utc_fromtimestamp reliable sample_roster sample_csv
                    (Rec 1 (3600 # 1)) sample_world) in
  t = [Commit (OpMarkEpoch 3600);
       FileWrite "./attendance_1970-01-02.csv";
       Commit (OpMarkPresent 1 "1970-01-01" "1970-01-01 01:00:00");
       Print (MarkedPresent "Ann" 1 "1970-01-01 01:00:00"
                "./attendance_1970-01-02.csv")] ∧
  ¬ (∀ (i j : nat) (a b : action),
       t !! i = Some a → is_store_write a = true →
       t !! j = Some b → is_ledger_write b = true → (i < j)%nat).
Proof.
  intros t. split; [reflexivity|].
  intros H.
  specialize (H 2%nat 1%nat
                (Commit (OpMarkPresent 1 "1970-01-01" "1970-01-01 01:00:00"))
                (FileWrite "./attendance_1970-01-02.csv")
                eq_refl eq_refl eq_refl eq_refl).
  lia.
Qed.

(** C3, amended — The ledger is written first. For a record that gets past
    the check of its key, whose user is in the roster and has no marker for
    the day of the record, and with the file of the poll in place and a
    store that works: the key is marked, then the file is rewritten when a
    row of the user was not Present, then the marker is written to the
    store, then the line is printed. And whatever store calls fail, in what
    handling a record does, every write of a file comes before every write
    of a marker to the store. *)
Theorem ledger_write_before_store_write (fromtimestamp : Z → datetime)
    (io_fails : store_op → World → bool)
    (users : gmap Z user) (csvfile : string) (rec : Attendance) (w : World)
    (u : user) (rows : list row) :
  let k := event_key rec in
  let uid := user_id rec in
  let today := day_str_for_dt (fromtimestamp k) in
  let checkin_str := device_epoch_to_local_str fromtimestamp k in
  k ∉ processed w →
  users !! uid = Some u →
  truthy (present w !! (today, uid)) = false →
  files w !! csvfile = Some rows →
  trace (handle_rec fromtimestamp reliable users csvfile rec w) =
    Commit (OpMarkEpoch k) ::
    (if (mark_rows uid checkin_str rows).2 then [FileWrite csvfile] else []) ++
    [Commit (OpMarkPresent uid today checkin_str);
     Print (MarkedPresent (name u) uid checkin_str csvfile)] ∧
  (∀ (i j : nat) (a b : action),
     let t := trace (handle_rec fromtimestamp io_fails users csvfile rec w) in
     t !! i = Some a → is_ledger_write a = true →
     t !! j = Some b → is_store_write b = true → (i < j)%nat).
Proof.
  intros k uid today checkin_str Hk Hu Htr Hf. split.
  - rewrite handle_rec_unfold; cbv zeta. unfold reliable.
    fold (event_key rec). fold k uid today checkin_str.
    rewrite (bool_decide_false (k ∈ processed w)) by done.
    rewrite Hu, Htr, Hf. cbn [trace]. by rewrite <- app_assoc.
  - intros i j a b t. subst t.
    rewrite handle_rec_unfold; cbv zeta.
    fold (event_key rec). fold k uid today checkin_str.
    rewrite Hu, Htr, Hf.
    repeat case_match; cbn [trace app].
    all: intros Hi Ha Hj Hb.
    all: repeat (destruct i as [|i]; cbn in Hi; try discriminate;
                 try (injection Hi as <-; cbn in Ha; try discriminate)).
    all: repeat (destruct j as [|j]; cbn in Hj; try discriminate;
                 try (injection Hj as <-; cbn in Hb; try discriminate)).
    all: lia.
Qed.

Lemma ledger_write_before_store_write_witness :
  let t := trace (handle_rec utc_fromtimestamp reliable sample_roster sample_csv
                    (Rec 1 (3600 # 1)) sample_world) in
  t !! 1%nat = Some (FileWrite sample_csv) ∧
  t !! 2%nat = Some (Commit (OpMarkPresent 1 "1970-01-01" "1970-01-01 01:00:00")) ∧
  (1 < 2)%nat.
Proof.
  intros t.
  assert (3600 ∉ processed sample_world) as Hk by (vm_compute; set_solver).
  destruct (ledger_write_before_store_write utc_fromtimestamp reliable
              sample_roster sample_csv (Rec 1 (3600 # 1)) sample_world ann
              [Row 1 "Ann" "Absent" ""; Row 2 "Bob" "Absent" ""]
              Hk eq_refl eq_refl eq_refl) as [_ H].
  split; [reflexivity|]. split; [reflexivity|].
  exact (H 1%nat 2%nat (FileWrite sample_csv)
           (Commit (OpMarkPresent 1 "1970-01-01" "1970-01-01 01:00:00"))
           eq_refl eq_refl eq_refl eq_refl).
Defined.

(** C4 — the ledger side of day isolation fails on the code. The poller is
    started at 09:00 on 1970-01-02 on a host in UTC, with a fresh state
    store and the roster of Ann and Bob: the file of 1970-01-02 is made
    with both Absent. In the first iteration of the loop the device
    reports a record of Ann at 01:00 on 1970-01-01. The marker is stored
    under 1970-01-01, and the row of Ann in the file of 1970-01-02 becomes
    Present, with a time of 1970-01-01; no file of 1970-01-01 is there. *)
Theorem day_isolation_ledger_violated :
  let now := DateTime (Date 1970 1 2) 9 0 0 in
  let rec := Rec 1 (3600 # 1) in
  let started := startup reliable 0 now fresh_world in
  let ls := LoopState sample_roster (attendance_file "1970-01-02") "1970-01-02" in
  let o := loop_body utc_fromtimestamp reliable 0 now (Ok [rec]) ls (world started) in
  res started = Ok ls ∧
  day_str_for_dt (utc_fromtimestamp (event_key rec)) = "1970-01-01" ∧
  files (world started) !! attendance_file "1970-01-02" =
    Some [Row 1 "Ann" "Absent" ""; Row 2 "Bob" "Absent" ""] ∧
  files (world o) !! attendance_file "1970-01-02" =
    Some [Row 1 "Ann" "Present" "1970-01-01 01:00:00"; Row 2 "Bob" "Absent" ""] ∧
  files (world o) !! attendance_file "1970-01-01" = None ∧
  present (world o) !! ("1970-01-01", 1) = Some "1970-01-01 01:00:00" ∧
  present (world o) !! ("1970-01-02", 1) = None.
Proof. intros now rec started ls o. repeat split; reflexivity. Qed.

(** The store side of day isolation holds: what a record does to the
    present table is confined to the day of the record, and the only file
    it can write is the one handed to the poll. *)
Lemma day_isolation_store (fromtimestamp : Z → datetime)
    (io_fails : store_op → World → bool)
    (users : gmap Z user) (csvfile : string) (rec : Attendance) (w : World)
    (day2 : string) (uid : Z) (f : string) :
  let o := handle_rec fromtimestamp io_fails users csvfile rec w in
  day2 ≠ day_str_for_dt (fromtimestamp (event_key rec)) →
  f ≠ csvfile →
  present (world o) !! (day2, uid) = present w !! (day2, uid) ∧
  files (world o) !! f = files w !! f.
Proof.
  intros o Hday Hf. split; [|by apply handle_rec_files_other].
  destruct (handle_rec_present fromtimestamp io_fails users csvfile rec w)
    as [Heq|(_ & _ & _ & Heq)]; subst o; rewrite Heq; [done|].
  rewrite lookup_insert_ne; [done|]. intros [=]. congruence.
Qed.

(** C5 — Unknown-person safety. A record whose user is not in the roster
    creates no marker and changes no file, whatever store calls fail. With a
    store that works, handling it raises nothing, its key is processed
    afterwards, and what is done is nothing when the key was processed
    before, and otherwise the marking of the key followed by the printed
    line about the unknown user, in this order; the loop goes on with the
    records that follow. *)
Theorem unknown_person_safety (fromtimestamp : Z → datetime)
    (io_fails : store_op → World → bool)
    (users : gmap Z user) (csvfile : string) (rec : Attendance)
    (rest : list Attendance) (w : World) :
  let k := event_key rec in
  let o := handle_rec fromtimestamp reliable users csvfile rec w in
  let o_any := handle_rec fromtimestamp io_fails users csvfile rec w in
  let o_rest := for_each (handle_rec fromtimestamp reliable users csvfile) rest (world o) in
  users !! user_id rec = None →
  (present (world o_any) = present w ∧ files (world o_any) = files w) ∧
  res o = Ok tt ∧
  k ∈ processed (world o) ∧
  trace o = (if bool_decide (k ∈ processed w) then []
             else [Commit (OpMarkEpoch k);
                   Print (UnknownUser (user_id rec)
                            (device_epoch_to_local_str fromtimestamp k))]) ∧
  for_each (handle_rec fromtimestamp reliable users csvfile) (rec :: rest) w =
    Out (res o_rest) (world o_rest) (trace o ++ trace o_rest).
Proof.
  intros k o o_any o_rest Hu.
  assert (res o = Ok tt ∧ k ∈ processed (world o) ∧
          trace o = (if bool_decide (k ∈ processed w) then []
                     else [Commit (OpMarkEpoch k);
                           Print (UnknownUser (user_id rec)
                                    (device_epoch_to_local_str fromtimestamp k))]))
    as (Hres & Hk & Ht).
  { subst o. rewrite handle_rec_unfold; cbv zeta. rewrite Hu.
    unfold reliable. fold (event_key rec). fold k.
    destruct (bool_decide (k ∈ processed w)) eqn:E; cbn.
    - apply bool_decide_eq_true in E. done.
    - split; [done|]. split; [set_solver|done]. }
  split; [|split; [done|split; [done|split; [done|]]]].
  - subst o_any. rewrite handle_rec_unfold; cbv zeta. rewrite Hu.
    repeat case_match; done.
  - rewrite for_each_cons. fold o. by rewrite Hres.
Qed.

Lemma unknown_person_safety_witness :
  let rec := Rec 7 (100 # 1) in
  let o := handle_rec utc_fromtimestamp reliable sample_roster sample_csv rec
             sample_world in
  sample_roster !! 7 = None ∧
  res o = Ok tt ∧ 100 ∈ processed (world o) ∧
  present (world o) = present sample_world ∧ files (world o) = files sample_world ∧
  trace o = [Commit (OpMarkEpoch 100);
             Print (UnknownUser 7 "1970-01-01 00:01:40")].
Proof.
  intros rec o.
  assert (sample_roster !! user_id rec = None) as H by reflexivity.
  destruct (unknown_person_safety utc_fromtimestamp reliable sample_roster
              sample_csv rec [] sample_world H) as ((H1 & H2) & H3 & H4 & H5 & _).
  split; [exact H|]. split; [exact H3|]. split; [exact H4|].
  split; [exact H1|]. split; [exact H2|exact H5].
Defined.

(** C6, as claimed, fails. The store fails while the first record of a batch
    of two is applied; the second record, which on its own is applied
    without an error, is not applied in this poll: its key is not processed
    and its user has no marker. The error is printed as a poll error and
    the poll ends there. *)
Lemma store_fault_not_contained :
  let io := fails_on_mark 100 in
  let h := handle_rec utc_fromtimestamp io sample_roster sample_csv in
  let o := poll_once utc_fromtimestamp io sample_roster sample_csv
             (Ok [Rec 2 (100 # 1); Rec 1 (3600 # 1)]) sample_world in
  res (h (Rec 2 (100 # 1)) sample_world) = Raise (OperationalError (OpMarkEpoch 100)) ∧
  res (h (Rec 1 (3600 # 1)) sample_world) = Ok tt ∧
  present (world (h (Rec 1 (3600 # 1)) sample_world)) !! ("1970-01-01", 1)
    = Some "1970-01-01 01:00:00" ∧
  world o = sample_world ∧
  (3600 ∉ processed (world o)) ∧
  present (world o) !! ("1970-01-01", 1) = None ∧
  trace o = [Print (PollError (OperationalError (OpMarkEpoch 100)))] ∧
  world o ≠ world (for_each h [Rec 1 (3600 # 1)] (world (h (Rec 2 (100 # 1)) sample_world))).
Proof.
  intros io h o.
  assert (world o = sample_world) as Hw by reflexivity.
  repeat (split; [reflexivity|]).
  split; [rewrite Hw; vm_compute; set_solver|].
  repeat (split; [reflexivity|]).
  rewrite Hw. intros Heq.
  apply (f_equal (λ w, present w !! ("1970-01-01", 1))) in Heq.
  vm_compute in Heq. discriminate.
Qed.

(** C6, amended — A store failure ends the poll. When, in the sorted batch,
    the records before [rec] were handled without an exception and a store
    call fails while [rec] is handled, the poll ends there: the failure is
    printed as a poll error, nothing of the records after [rec] is applied
    in this poll, what was committed up to the failure stays, and
    [poll_once] itself returns normally. *)
Theorem store_fault_abandons_poll (fromtimestamp : Z → datetime)
    (io_fails : store_op → World → bool)
    (users : gmap Z user) (csvfile : string)
    (recs pre post : list Attendance) (rec : Attendance) (w : World)
    (op : store_op) :
  let h := handle_rec fromtimestamp io_fails users csvfile in
  let before := for_each h pre w in
  let failing := h rec (world before) in
  py_sorted timestamp Qle_bool recs = pre ++ rec :: post →
  res before = Ok tt →
  res failing = Raise (OperationalError op) →
  poll_once fromtimestamp io_fails users csvfile (Ok recs) w =
    Out (Ok tt) (world failing)
      (trace before ++ trace failing ++ [Print (PollError (OperationalError op))]).
Proof.
  intros h before failing Hsorted Hbefore Hfail.
  rewrite poll_once_unfold. cbv zeta. rewrite Hsorted.
  fold h. rewrite (for_each_app_raise h pre post rec w _ Hbefore Hfail).
  cbn [res world trace is_Exception]. by rewrite <- app_assoc.
Qed.

Lemma store_fault_abandons_poll_witness :
  let io := fails_on_mark 100 in
  let recs := [Rec 1 (3600 # 1); Rec 2 (100 # 1)] in
  py_sorted timestamp Qle_bool recs = [] ++ Rec 2 (100 # 1) :: [Rec 1 (3600 # 1)] ∧
  poll_once utc_fromtimestamp io sample_roster sample_csv (Ok recs) sample_world =
    Out (Ok tt) sample_world [Print (PollError (OperationalError (OpMarkEpoch 100)))].
Proof.
  intros io recs. split; [reflexivity|].
  exact (store_fault_abandons_poll utc_fromtimestamp io sample_roster sample_csv
           recs [] [Rec 1 (3600 # 1)] (Rec 2 (100 # 1)) sample_world
           (OpMarkEpoch 100) eq_refl eq_refl eq_refl).
Defined.

(** C7, as claimed, fails: marking a key that is new does insert it, and
    what the call returns is [None], not the boolean true. *)
Lemma mark_epoch_processed_no_boolean :
  let o := mark_epoch_processed reliable 5 fresh_world in
  (5 ∉ processed fresh_world) ∧ 5 ∈ processed (world o) ∧
  res o = Ok PyNone ∧ res o ≠ Ok (PyBool true).
Proof.
  intros o. split; [set_solver|]. split; [vm_compute; set_solver|].
  split; [reflexivity|discriminate].
Qed.

(** C7, amended — [mark_epoch_processed] returns nothing. With a store that
    works, the call returns [None] whether or not the key was there; the
    key is processed afterwards, the other tables and the files are as
    before, and a row is written exactly when the key was new. Whether a
    key is new is what [is_epoch_processed] answers before the call. *)
Theorem mark_epoch_processed_returns_none (k : Z) (w : World) :
  let o := mark_epoch_processed reliable k w in
  res o = Ok PyNone ∧
  processed (world o) = {[k]} ∪ processed w ∧
  present (world o) = present w ∧ meta (world o) = meta w ∧
  files (world o) = files w ∧
  trace o = (if bool_decide (k ∈ processed w) then [] else [Commit (OpMarkEpoch k)]) ∧
  is_epoch_processed reliable k w = Out (Ok (bool_decide (k ∈ processed w))) w [] ∧
  is_epoch_processed reliable k (world o) = Out (Ok true) (world o) [].
Proof.
  intros o. subst o.
  rewrite !is_epoch_processed_unfold, mark_epoch_processed_unfold.
  unfold reliable.
  destruct (bool_decide (k ∈ processed w)) eqn:E; cbn.
  - apply bool_decide_eq_true in E.
    rewrite (bool_decide_true (k ∈ processed w)) by done.
    split; [reflexivity|]. split.
    { apply set_eq. intros x. rewrite elem_of_union, elem_of_singleton.
      split; [by right|]. by intros [->|?]. }
    repeat (split; [reflexivity|]). reflexivity.
  - rewrite (bool_decide_true (k ∈ {[k]} ∪ processed w)) by set_solver.
    repeat (split; [reflexivity|]). reflexivity.
Qed.

(** C8 — A presence marker is not changed by a second marking. When
    handling a record wrote the marker of its user and day to the store,
    then in every later world the marker still holds the time of that
    record, and handling another record of the same user and day, whatever
    its time, leaves the present table as it is and writes neither the
    store's marker nor a file: the check of [is_user_marked_today] in the
    loop keeps the store call from being made. The store call itself,
    [mark_user_present], replaces the stored value. *)
Theorem presence_marker_immutable (fromtimestamp : Z → datetime)
    (io_fails : store_op → World → bool)
    (users1 users2 : gmap Z user) (csvfile1 csvfile2 : string)
    (rec1 rec2 : Attendance) (w w' : World) :
  let uid := user_id rec1 in
  let day := day_str_for_dt (fromtimestamp (event_key rec1)) in
  let first_seen := device_epoch_to_local_str fromtimestamp (event_key rec1) in
  let first := handle_rec fromtimestamp io_fails users1 csvfile1 rec1 w in
  let second := handle_rec fromtimestamp io_fails users2 csvfile2 rec2 w' in
  In (Commit (OpMarkPresent uid day first_seen)) (trace first) →
  later fromtimestamp io_fails (world first) w' →
  user_id rec2 = uid →
  day_str_for_dt (fromtimestamp (event_key rec2)) = day →
  present w' !! (day, uid) = Some first_seen ∧
  present (world second) = present w' ∧
  Forall (λ a, is_store_write a = false ∧ is_ledger_write a = false) (trace second) ∧
  (∀ s w0, present (world (mark_user_present reliable uid day s w0)) !! (day, uid)
           = Some s).
Proof.
  intros uid day first_seen first second Hin Hlater Huid Hday.
  assert (present (world first) !! (day, uid) = Some first_seen) as Hfirst.
  { subst first. revert Hin. rewrite handle_rec_unfold; cbv zeta.
    fold (event_key rec1). fold uid day first_seen.
    repeat case_match; cbn [res world trace present set_present app In];
      intros Hin; repeat (destruct Hin as [Hin|Hin]; try discriminate); try done.
    all: by rewrite lookup_insert_eq. }
  assert (present w' !! (day, uid) = Some first_seen) as Hkept.
  { apply (later_marker_kept _ _ _ _ _ _ _ Hlater Hfirst). apply local_str_nonempty. }
  split; [done|].
  destruct (handle_rec_already fromtimestamp io_fails users2 csvfile2 rec2 w'
              first_seen) as (Hp & _ & Ht).
  { by rewrite Hday, Huid. }
  { apply local_str_nonempty. }
  split; [done|]. split; [done|].
  intros s w0. rewrite mark_user_present_unfold. cbn.
  by rewrite lookup_insert_eq.
Qed.

Lemma presence_marker_immutable_witness :
  let rec1 := Rec 2 (28800 # 1) in
  let rec2 := Rec 2 (30600 # 1) in
  let first := handle_rec utc_fromtimestamp reliable sample_roster sample_csv
                 rec1 sample_world in
  let second := handle_rec utc_fromtimestamp reliable sample_roster sample_csv
                  rec2 (world first) in
  In (Commit (OpMarkPresent 2 "1970-01-01" "1970-01-01 08:00:00")) (trace first) ∧
  present (world first) !! ("1970-01-01", 2) = Some "1970-01-01 08:00:00" ∧
  present (world second) = present (world first).
Proof.
  intros rec1 rec2 first second.
  assert (In (Commit (OpMarkPresent 2 "1970-01-01" "1970-01-01 08:00:00"))
            (trace first)) as H1.
  { right. right. left. reflexivity. }
  destruct (presence_marker_immutable utc_fromtimestamp reliable sample_roster
              sample_roster sample_csv sample_csv rec1 rec2 sample_world
              (world first) H1 (later_now _ _ _) eq_refl eq_refl) as (H2 & H3 & _).
  split; [exact H1|]. split; [exact H2|exact H3].
Defined.

(** C9, as claimed, fails. The state store points at 1970-01-02, which is
    the active day and the day in memory, but the file of that day is gone.
    The roster file has Ann and Bob, the roster in memory has Ann alone. The
    day check makes the file again, from the roster in memory: the roster is
    not read again, and the file has no row for Bob. When the day in
    memory differs, the roster is read again, but the file of the new day
    was made before that and has no row for Bob either. *)
Lemma day_check_no_reload_counterexample :
  let now := DateTime (Date 1970 1 2) 10 0 0 in
  let ls := LoopState {[ 1 := ann ]} sample_csv "1970-01-02" in
  let o := day_check reliable 0 now ls world_file_gone in
  let ls_old := LoopState {[ 1 := ann ]} (attendance_file "1970-01-01") "1970-01-01" in
  let o_new_day := day_check reliable 0 now ls_old fresh_world in
  (isoformat (active_day 0 now) = "1970-01-02" ∧
   files world_file_gone !! sample_csv = None ∧
   res (load_users world_file_gone) = Ok sample_roster) ∧
  (res o = Ok ls ∧ ls_users ls ≠ sample_roster ∧
   files (world o) !! sample_csv = Some [Row 1 "Ann" "Absent" ""] ∧
   absent_rows sample_roster = [Row 1 "Ann" "Absent" ""; Row 2 "Bob" "Absent" ""]) ∧
  (res o_new_day = Ok (LoopState sample_roster sample_csv "1970-01-02") ∧
   files (world o_new_day) !! sample_csv = Some [Row 1 "Ann" "Absent" ""]).
Proof.
  intros now ls o ls_old o_new_day.
  split; [repeat split; reflexivity|].
  split; [|split; reflexivity].
  split; [reflexivity|]. split; [|split; reflexivity].
  intros Heq. apply (f_equal (λ m : gmap Z user, m !! 2)) in Heq.
  vm_compute in Heq. discriminate.
Qed.

(** C9, amended — Day check and materialisation. The active day is the day
    of the clock, or the day before when the hour of the clock is before
    the rollover hour. With a store that works, when the state store does
    not point at the active day or the file of the active day does not
    exist, the day check writes that file anew, whatever it held before,
    with Absent rows without a time only, in strictly ascending order of
    the ids; it sets the pointer to the active day; it leaves the other
    files and tables alone. When the active day is the day in memory, the
    roster is not read again, whatever the roster file holds: the roster in
    memory is kept, and the file has exactly one row per user of it. When
    the active day differs from the day in memory, the roster is read again
    from the roster file. *)
Theorem day_check_materializes (ROLLOVER_HOUR : Z) (now : datetime)
    (ls : loop_state) (w : World) :
  let daystr := isoformat (active_day ROLLOVER_HOUR now) in
  let csvfile := attendance_file daystr in
  let o := day_check reliable ROLLOVER_HOUR now ls w in
  meta w !! CURRENT_CSV_DATE ≠ Some daystr ∨ files w !! csvfile = None →
  active_day ROLLOVER_HOUR now =
    (if dt_hour now <? ROLLOVER_HOUR then minus_one_day (dt_date now)
     else dt_date now) ∧
  (∃ rows, files (world o) !! csvfile = Some rows ∧
           Forall (λ r, r_status r = "Absent" ∧ r_first_checkin_local r = "") rows ∧
           StronglySorted Z.lt (r_id <$> rows)) ∧
  meta (world o) !! CURRENT_CSV_DATE = Some daystr ∧
  (∀ f, f ≠ csvfile → files (world o) !! f = files w !! f) ∧
  processed (world o) = processed w ∧ present (world o) = present w ∧
  (ls_daystr ls = daystr →
   res o = Ok (LoopState (ls_users ls) csvfile daystr) ∧
   files (world o) !! csvfile = Some (absent_rows (ls_users ls)) ∧
   (∀ r, r ∈ absent_rows (ls_users ls) ↔
         ∃ u, ls_users ls !! r_id r = Some u ∧
              r = Row (r_id r) (name u) "Absent" "")) ∧
  (ls_daystr ls ≠ daystr →
   res o = match res (load_users w) with
           | Ok users => Ok (LoopState users csvfile daystr)
           | Raise e => Raise e
           end).
Proof.
  intros daystr csvfile o Hcond.
  split; [reflexivity|].
  destruct (absent_rows_spec (ls_users ls)) as [Hsorted Hrows].
  assert (Forall (λ r, r_status r = "Absent" ∧ r_first_checkin_local r = "")
            (absent_rows (ls_users ls))) as Habsent.
  { apply Forall_forall. intros r Hr. apply Hrows in Hr as (u & _ & ->). done. }
  assert (bool_decide (meta w !! CURRENT_CSV_DATE ≠ Some daystr)
          || negb (bool_decide (is_Some (files w !! csvfile))) = true) as Hb.
  { destruct Hcond as [Hm|Hf].
    - by rewrite (bool_decide_true (meta w !! CURRENT_CSV_DATE ≠ Some daystr)).
    - rewrite (bool_decide_false (is_Some (files w !! csvfile))).
      + by rewrite orb_true_r.
      + rewrite Hf. by intros [? ?]. }
  subst o. unfold day_check. rewrite bind_unfold.
  rewrite ensure_csv_for_today_unfold. cbv zeta. fold daystr csvfile.
  rewrite Hb. cbn [res world trace].
  set (w1 := set_meta_table <[CURRENT_CSV_DATE:=daystr]>
               (set_files <[csvfile:=absent_rows (ls_users ls)]> w)).
  assert (load_users w1 = Out (res (load_users w)) w1 []) as Hload.
  { rewrite load_users_unfold. by rewrite (load_users_res w w1). }
  assert (files w1 !! csvfile = Some (absent_rows (ls_users ls)) ∧
          meta w1 !! CURRENT_CSV_DATE = Some daystr ∧
          (∀ f, f ≠ csvfile → files w1 !! f = files w !! f) ∧
          processed w1 = processed w ∧ present w1 = present w)
    as (Hfile & Hmeta & Hother & Hproc & Hpres).
  { subst w1. cbn [files meta processed present set_meta_table set_files].
    rewrite !lookup_insert_eq. repeat (split; [done|]).
    split; [|done]. intros f Hf. by rewrite lookup_insert_ne. }
  clearbody w1.
  destruct (bool_decide (daystr ≠ ls_daystr ls)) eqn:E.
  - apply bool_decide_eq_true in E.
    rewrite bind_unfold, Hload. cbn [res world trace].
    assert (∀ P : Prop, ls_daystr ls = daystr → P) as Hno.
    { intros P Heq. by destruct E. }
    destruct (res (load_users w)) as [users|e];
      cbn [res world trace print emit mret M_ret ret mbind M_bind bind];
      (split; [by exists (absent_rows (ls_users ls))|]);
      do 4 (split; [done|]); (split; [apply Hno|done]).
  - apply bool_decide_eq_false in E.
    assert (ls_daystr ls = daystr) as Hsame.
    { destruct (decide (ls_daystr ls = daystr)) as [|Hne]; [done|].
      destruct E. by intros ->. }
    cbn [res world trace mret M_ret ret].
    split; [by exists (absent_rows (ls_users ls))|].
    do 4 (split; [done|]). split.
    + intros _. by rewrite Hsame.
    + intros Hne. by destruct Hne.
Qed.

Lemma day_check_materializes_witness :
  let now := DateTime (Date 1970 1 3) 3 0 0 in
  let ls := LoopState {[ 1 := ann ]} sample_csv "1970-01-02" in
  let o := day_check reliable 4 now ls world_file_gone in
  (meta world_file_gone !! CURRENT_CSV_DATE ≠ Some "1970-01-02" ∨
   files world_file_gone !! attendance_file "1970-01-02" = None) ∧
  isoformat (active_day 4 now) = "1970-01-02" ∧
  res o = Ok ls ∧
  files (world o) !! attendance_file "1970-01-02" = Some [Row 1 "Ann" "Absent" ""] ∧
  meta (world o) !! CURRENT_CSV_DATE = Some "1970-01-02".
Proof.
  intros now ls o.
  assert (meta world_file_gone !! CURRENT_CSV_DATE ≠ Some "1970-01-02" ∨
          files world_file_gone !! attendance_file "1970-01-02" = None) as H.
  { right. reflexivity. }
  destruct (day_check_materializes 4 now ls world_file_gone H)
    as (_ & _ & H2 & _ & _ & _ & H3 & _).
  destruct (H3 eq_refl) as (H4 & H5 & _).
  split; [exact H|]. split; [reflexivity|]. split; [exact H4|].
  split; [exact H5|exact H2].
Defined.

(** C10 — Collision of keys at the resolution of a second. The key of a
    record is its timestamp truncated to a whole second ([event_key]). Over
    any number of polls a key is marked, and so a record with it applied,
    at most once. When two records have the same key and the first was
    handled, then in every later world the second, whatever its user and
    whatever the present table holds for that user, is skipped: the store
    and the files stay as they are, no marker is made, and nothing is
    done. This holds whatever store calls fail. *)
Theorem same_second_collision (fromtimestamp : Z → datetime)
    (io_fails : store_op → World → bool)
    (users1 users2 : gmap Z user) (csvfile1 csvfile2 : string)
    (rec1 rec2 : Attendance) (w w' : World) :
  let first := handle_rec fromtimestamp io_fails users1 csvfile1 rec1 w in
  let second := handle_rec fromtimestamp io_fails users2 csvfile2 rec2 w' in
  py_int (timestamp rec1) = py_int (timestamp rec2) →
  res first = Ok tt →
  later fromtimestamp io_fails (world first) w' →
  (∀ w0 ps0,
     (nmarks (event_key rec1) (trace (polls fromtimestamp io_fails ps0 w0)) ≤ 1)%nat) ∧
  world second = w' ∧ trace second = [] ∧
  present (world second) = present w' ∧ files (world second) = files w'.
Proof.
  intros first second Hkey Hfirst Hlater.
  split.
  { intros w0 ps0.
    destruct (marks_once_polls fromtimestamp io_fails (event_key rec1) ps0 w0)
      as (_ & B & _).
    destruct (bool_decide _) in B; lia. }
  assert (event_key rec2 ∈ processed w') as Hin.
  { apply (later_processed_mono _ _ _ _ Hlater).
    unfold event_key. rewrite <- Hkey.
    by apply handle_rec_ok_processed. }
  destruct (handle_rec_skip fromtimestamp io_fails users2 csvfile2 rec2 w' Hin)
    as [Hw Ht].
  subst second. by rewrite Hw, Ht.
Qed.

(** Timestamps from 1970 on that lie in the same second have the same
    key. *)
Lemma same_floor_same_key (t1 t2 : Q) :
  (0 <= t1)%Q → (0 <= t2)%Q → Qfloor t1 = Qfloor t2 → py_int t1 = py_int t2.
Proof.
  destruct t1 as [n1 d1], t2 as [n2 d2]. unfold Qle, py_int, Qfloor. cbn.
  intros H1 H2 Hf.
  rewrite !Z.quot_div_nonneg by lia. done.
Qed.

Lemma same_second_collision_witness :
  let rec1 := Rec 1 (3600 # 1) in
  let rec2 := Rec 2 (7201 # 2) in
  let first := handle_rec utc_fromtimestamp reliable sample_roster sample_csv
                 rec1 sample_world in
  let second := handle_rec utc_fromtimestamp reliable sample_roster sample_csv
                  rec2 (world first) in
  (py_int (timestamp rec1) = py_int (timestamp rec2) ∧ res first = Ok tt) ∧
  present (world (handle_rec utc_fromtimestamp reliable sample_roster sample_csv
                    rec2 sample_world)) !! ("1970-01-01", 2)
    = Some "1970-01-01 01:00:00" ∧
  world second = world first ∧ trace second = [] ∧
  present (world second) !! ("1970-01-01", 2) = None.
Proof.
  intros rec1 rec2 first second.
  assert (py_int (timestamp rec1) = py_int (timestamp rec2)) as H1 by reflexivity.
  assert (res first = Ok tt) as H2 by reflexivity.
  destruct (same_second_collision utc_fromtimestamp reliable sample_roster
              sample_roster sample_csv sample_csv rec1 rec2 sample_world
              (world first) H1 H2 (later_now _ _ _))
    as (_ & H3 & H4 & H5 & _).
  split; [by split|]. split; [reflexivity|].
  split; [exact H3|]. split; [exact H4|].
  exact (eq_trans (f_equal (λ m : gmap (string * Z) string, m !! ("1970-01-01", 2)) H5)
           eq_refl).
Defined.

(** * Further properties of the poller *)

(** ** The roster *)

Lemma roster_of_rows_snoc (rows : list (Z * string)) (uid : Z) (nm : string) :
  roster_of_rows (rows ++ [(uid, nm)]) = <[uid := User uid nm]> (roster_of_rows rows).
Proof. unfold roster_of_rows. by rewrite foldl_app. Qed.

Lemma roster_of_rows_lookup (rows : list (Z * string)) (uid : Z) (u : user) :
  roster_of_rows rows !! uid = Some u → id u = uid ∧ (uid, name u) ∈ rows.
Proof.
  induction rows as [|[uid' nm] rows IH] using rev_ind; [done|].
  rewrite roster_of_rows_snoc. intros H.
  destruct (decide (uid' = uid)) as [->|Hne].
  - rewrite lookup_insert_eq in H. injection H as <-. cbn.
    split; [done|]. apply elem_of_app. right. by left.
  - rewrite lookup_insert_ne in H by done.
    destruct (IH H) as [Hid Hin]. split; [done|].
    apply elem_of_app. by left.
Qed.

Lemma roster_of_rows_dom (rows : list (Z * string)) (uid : Z) :
  is_Some (roster_of_rows rows !! uid) ↔ uid ∈ rows.*1.
Proof.
  induction rows as [|[uid' nm] rows IH] using rev_ind.
  - cbn. split; [by intros [? ?]|by intros ?%elem_of_nil].
  - rewrite roster_of_rows_snoc, fmap_app, elem_of_app. cbn.
    destruct (decide (uid' = uid)) as [->|Hne].
    + rewrite lookup_insert_eq. split; [intros _; right; by left|eauto].
    + rewrite lookup_insert_ne by done. rewrite IH.
      split; [by left|]. intros [H|H]; [done|].
      apply list_elem_of_singleton in H. congruence.
Qed.

Lemma roster_of_rows_last_wins (l1 l2 : list (Z * string)) (uid : Z) (nm : string) :
  uid ∉ l2.*1 →
  roster_of_rows (l1 ++ (uid, nm) :: l2) !! uid = Some (User uid nm).
Proof.
  induction l2 as [|[uid' nm'] l2 IH] using rev_ind; intros Hnotin.
  - rewrite roster_of_rows_snoc. by rewrite lookup_insert_eq.
  - rewrite fmap_app, elem_of_app in Hnotin. cbn in Hnotin.
    assert (uid' ≠ uid) as Hne.
    { intros ->. apply Hnotin. right. by left. }
    rewrite app_comm_cons, app_assoc, roster_of_rows_snoc.
    rewrite lookup_insert_ne by done. apply IH. intros H. apply Hnotin. by left.
Qed.

(** What the loop of [load_users] makes of the lines: the roster of their
    ids and names when every line gives them, and otherwise the error of
    the first line that does not. *)
Lemma read_row_fields (users : gmap Z user) (row : csv_row) :
  match row_fields row with
  | Some (uid, nm) => read_row users row = Ok (<[uid := User uid nm]> users)
  | None => ∃ e, read_row users row = Raise e ∧
                 match e with
                 | KeyError _ | ValueError _ => True
                 | _ => False
                 end
  end.
Proof.
  unfold row_fields, read_row.
  destruct (row !! "id") as [cell|]; [|by eexists].
  destruct (py_int_str cell) as [uid|]; [|by eexists].
  destruct (row !! "name") as [nm|]; [done|by eexists].
Qed.

Lemma read_rows_fields (lines : list csv_row) (rows : list (Z * string))
    (users : gmap Z user) :
  row_fields <$> lines = Some <$> rows →
  read_rows users lines =
    Ok (foldl (λ (users : gmap Z user) '(uid, nm), <[uid := User uid nm]> users)
          users rows).
Proof.
  revert rows users. induction lines as [|row lines IH]; intros [|[uid nm] rows] users;
    cbn [fmap list_fmap read_rows foldl]; try done.
  intros [= Hrow Hrest].
  pose proof (read_row_fields users row) as Hr. rewrite Hrow in Hr.
  rewrite Hr. by apply IH.
Qed.



(** X1 — The roster that [load_users] reads. When the roster file exists
    and every line of it has an id that [int] reads as a number and a
    name, [load_users] returns, without changing or printing anything, a
    roster whose ids are exactly the ids of the lines of the file, in
    which every entry carries its own id and a name that some line gives
    to that id, and in which, for an id that occurs several times, the
    last line wins. *)
Theorem load_users_roster (lines : list csv_row) (rows : list (Z * string))
    (w : World) :
  users_csv w = Some lines →
  row_fields <$> lines = Some <$> rows →
  load_users w = Out (Ok (roster_of_rows rows)) w [] ∧
  (∀ uid, is_Some (roster_of_rows rows !! uid) ↔ uid ∈ rows.*1) ∧
  (∀ uid u, roster_of_rows rows !! uid = Some u →
            id u = uid ∧ (uid, name u) ∈ rows) ∧
  (∀ l1 l2 uid nm, rows = l1 ++ (uid, nm) :: l2 → uid ∉ l2.*1 →
                   roster_of_rows rows !! uid = Some (User uid nm)).
Proof.
  intros Hlines Hrows. split; [|split; [|split]].
  - unfold load_users. cbv [mbind M_bind bind get]. rewrite Hlines.
    by rewrite (read_rows_fields lines rows ∅ Hrows).
  - apply roster_of_rows_dom.
  - apply roster_of_rows_lookup.
  - intros l1 l2 uid nm -> Hnotin. by apply roster_of_rows_last_wins.
Qed.

Lemma load_users_roster_witness :
  let lines := [csv_line "1" "Ann"; csv_line " 2" "Bob"; csv_line "01" "Anna"] in
  let rows := [(1, "Ann"); (2, "Bob"); (1, "Anna")] in
  let w := mkWorld ∅ ∅ ∅ ∅ (Some lines) in
  users_csv w = Some lines ∧
  row_fields <$> lines = Some <$> rows ∧
  load_users w = Out (Ok (roster_of_rows rows)) w [] ∧
  roster_of_rows rows !! 1 = Some (User 1 "Anna").
Proof.
  intros lines rows w.
  assert (users_csv w = Some lines) as H by reflexivity.
  assert (row_fields <$> lines = Some <$> rows) as H0 by reflexivity.
  destruct (load_users_roster lines rows w H H0) as (H1 & _ & _ & H2).
  split; [exact H|]. split; [exact H0|]. split; [exact H1|].
  apply (H2 [(1, "Ann"); (2, "Bob")] [] 1 "Anna" eq_refl).
  intros Hin. apply elem_of_nil in Hin. exact Hin.
Defined.

(** X2 — A missing roster file ends the start. When the roster file does
    not exist, [startup] raises before any table row or file is written
    and before anything is printed, whatever the store does. When
    [init_db] fails, the error is the one of the store. When it works, its
    commit is all that has happened and the error is [SystemExit], which
    is not an [Exception]: a handler for [Exception] around the start
    would not catch it. *)
Theorem startup_missing_roster (io_fails : store_op → World → bool)
    (ROLLOVER_HOUR : Z) (now : datetime) (w : World)
    (handler : exn → M loop_state) :
  users_csv w = None →
  let o := startup io_fails ROLLOVER_HOUR now w in
  world o = w ∧
  (io_fails OpInitDb w = true →
   o = Out (Raise (OperationalError OpInitDb)) w []) ∧
  (io_fails OpInitDb w = false →
   ∃ msg,
     o = Out (Raise (SystemExit msg)) w [Commit OpInitDb] ∧
     try_except (startup io_fails ROLLOVER_HOUR now) handler w = o).
Proof.
  intros Hnone o.
  assert (load_users w =
            Out (Raise (SystemExit "Missing users.csv. Create it with header 'id,name'."))
              w []) as Hl.
  { unfold load_users. cbv [mbind M_bind bind get raise]. by rewrite Hnone. }
  assert (o = if io_fails OpInitDb w
              then Out (Raise (OperationalError OpInitDb)) w []
              else Out (Raise (SystemExit "Missing users.csv. Create it with header 'id,name'."))
                     w [Commit OpInitDb]) as Ho.
  { subst o. unfold startup. rewrite bind_unfold, init_db_unfold.
    destruct (io_fails OpInitDb w); cbn [res world trace]; [done|].
    rewrite bind_unfold, Hl. done. }
  split; [rewrite Ho; by destruct (io_fails OpInitDb w)|].
  split; intros Hf; rewrite Hf in Ho; [done|].
  exists "Missing users.csv. Create it with header 'id,name'.".
  split; [done|].
  rewrite try_except_unfold. fold o. by rewrite Ho.
Qed.

Lemma startup_missing_roster_witness :
  let w := mkWorld ∅ ∅ ∅ ∅ None in
  users_csv w = None ∧
  ∃ msg, startup reliable 0 (DateTime (Date 1970 1 2) 9 0 0) w =
           Out (Raise (SystemExit msg)) w [Commit OpInitDb].
Proof.
  intros w.
  assert (users_csv w = None) as H by reflexivity.
  destruct (startup_missing_roster reliable 0 (DateTime (Date 1970 1 2) 9 0 0) w
              (λ e, raise e) H) as (_ & _ & H2).
  destruct (H2 eq_refl) as (msg & H1 & _).
  split; [exact H|]. exists msg. exact H1.
Defined.

(** ** The meta table *)

(** X3 — Writing and reading the meta table. With a store that works,
    after [set_meta k v] the call [get_meta k] returns [v], also when [k]
    had a value before, and [get_meta] of any other key returns what it
    returned before; [set_meta] changes nothing but the meta table, and
    [get_meta] changes nothing. *)
Theorem meta_round_trip (k k' v : string) (w : World) :
  let written := set_meta reliable k v w in
  let read := get_meta reliable k' (world written) in
  res written = Ok tt ∧
  res read = Ok (if decide (k = k') then Some v else meta w !! k') ∧
  world read = world written ∧
  processed (world written) = processed w ∧
  present (world written) = present w ∧
  files (world written) = files w ∧
  users_csv (world written) = users_csv w.
Proof.
  intros written read. subst written read.
  rewrite get_meta_unfold, set_meta_unfold. unfold reliable.
  cbn [res world meta set_meta_table processed present files users_csv].
  rewrite lookup_insert. repeat split; try done.
Qed.

(** ** The ledger file *)

Lemma mark_rows_spec (uid : Z) (checkin_str : string) (rows : list row) :
  mark_rows uid checkin_str rows =
  (mark_row uid checkin_str <$> rows, existsb (needs_mark uid) rows).
Proof.
  induction rows as [|rr rows IH]; [done|].
  cbn [mark_rows]. rewrite IH. cbn [fmap list_fmap existsb].
  unfold mark_row. fold (needs_mark uid rr).
  by destruct (needs_mark uid rr).
Qed.

Lemma needs_mark_mark_row (uid : Z) (checkin_str : string) (rr : row) :
  needs_mark uid (mark_row uid checkin_str rr) = false.
Proof.
  unfold mark_row. destruct (needs_mark uid rr) eqn:E; [|done].
  unfold needs_mark. cbn. by rewrite andb_false_r.
Qed.

Lemma existsb_needs_mark_marked (uid : Z) (checkin_str : string) (rows : list row) :
  existsb (needs_mark uid) (mark_row uid checkin_str <$> rows) = false.
Proof.
  induction rows as [|rr rows IH]; [done|].
  cbn [fmap list_fmap existsb]. by rewrite needs_mark_mark_row, IH.
Qed.

Lemma row_kept_refl (r : row) : row_kept r r.
Proof. repeat split; auto. Qed.

Lemma row_kept_trans (r1 r2 r3 : row) :
  row_kept r1 r2 → row_kept r2 r3 → row_kept r1 r3.
Proof.
  intros (Hi1 & Hn1 & Hp1 & Hc1) (Hi2 & Hn2 & Hp2 & Hc2).
  split; [congruence|]. split; [congruence|]. split.
  - intros Hp. rewrite (Hp1 Hp) in *. by apply Hp2.
  - destruct Hc2 as [->|Hp]; [|by right]. done.
Qed.

Lemma row_kept_mark_row (uid : Z) (checkin_str : string) (rr : row) :
  row_kept rr (mark_row uid checkin_str rr).
Proof.
  unfold mark_row. destruct (needs_mark uid rr) eqn:E; [|apply row_kept_refl].
  unfold needs_mark in E. apply andb_true_iff in E as [_ E].
  apply negb_true_iff, String.eqb_neq in E.
  split; [done|]. split; [done|]. split; [done|by right].
Qed.

Lemma files_kept_refl (w : World) : files_kept w w.
Proof.
  intros f rows H. exists rows. split; [done|].
  apply Forall2_same_length_lookup. split; [done|].
  intros i x y Hx Hy. rewrite Hx in Hy. injection Hy as <-. apply row_kept_refl.
Qed.

Lemma files_kept_trans (w1 w2 w3 : World) :
  files_kept w1 w2 → files_kept w2 w3 → files_kept w1 w3.
Proof.
  intros H12 H23 f rows H.
  destruct (H12 f rows H) as (rows2 & H2 & F12).
  destruct (H23 f rows2 H2) as (rows3 & H3 & F23).
  exists rows3. split; [done|].
  eapply Forall2_trans; [|exact F12|exact F23]. apply row_kept_trans.
Qed.

Lemma files_kept_handle_rec fromtimestamp io_fails users csvfile rec w :
  files_kept w (world (handle_rec fromtimestamp io_fails users csvfile rec w)).
Proof.
  assert (∀ w', files w' = files w → files_kept w w') as Hsame.
  { intros w' Hw' f rows H. rewrite Hw'. by apply files_kept_refl. }
  rewrite handle_rec_unfold; cbv zeta.
  repeat case_match; cbn [world]; try (by apply Hsame).
  all: rewrite mark_rows_spec; cbn [fst].
  all: intros f rows' Hf; cbn [files set_files set_present set_processed].
  all: match goal with
       | |- context [<[?c := _]> _ !! ?g] =>
           destruct (decide (g = c)) as [->|Hne]
       end;
    [rewrite lookup_insert_eq|rewrite lookup_insert_ne by done; by apply files_kept_refl].
  all: eexists; split; [done|].
  all: match goal with
       | H1 : files ?w0 !! ?c = Some ?a, H2 : files ?w0 !! ?c = Some ?b |- _ =>
           rewrite H1 in H2; injection H2 as <-
       end.
  all: apply Forall2_fmap_r, Forall2_same_length_lookup; split; [done|].
  all: intros i x y Hx Hy; rewrite Hx in Hy; injection Hy as <-.
  all: apply row_kept_mark_row.
Qed.

(** A relation between the world before and after that handling one record
    keeps, is kept by a poll and by any number of polls. *)
Lemma polls_keep fromtimestamp io_fails (R : World → World → Prop) :
  (∀ w, R w w) → (∀ w1 w2 w3, R w1 w2 → R w2 w3 → R w1 w3) →
  (∀ users csvfile rec w,
     R w (world (handle_rec fromtimestamp io_fails users csvfile rec w))) →
  ∀ ps w, R w (world (polls fromtimestamp io_fails ps w)).
Proof.
  intros Hrefl Htrans Hstep ps.
  induction ps as [|[[users csvfile] device] ps IH]; intros w; [apply Hrefl|].
  rewrite polls_cons.
  assert (R w (world (poll_once fromtimestamp io_fails users csvfile device w))) as Hp.
  { rewrite poll_once_world. destruct device; [|apply Hrefl].
    apply (for_each_world R); auto. }
  destruct (res _); cbn; eauto.
Qed.

(** X4 — What [update_csv_mark_present] returns and does. On a file that
    exists, the call returns true exactly when some row of the user is not
    yet Present; then the file is rewritten with these rows Present at the
    given time, and otherwise nothing is written. A second call for the same
    user, with whatever time, returns false and writes nothing, so the time
    of the first call stays. No other file and no table of the store is
    touched. *)
Theorem update_csv_mark_present_once (filename : string) (uid : Z)
    (checkin_str checkin_str' : string) (w : World) (rows : list row) :
  let o1 := update_csv_mark_present filename uid checkin_str w in
  let o2 := update_csv_mark_present filename uid checkin_str' (world o1) in
  files w !! filename = Some rows →
  res o1 = Ok (existsb (needs_mark uid) rows) ∧
  files (world o1) !! filename = Some (mark_row uid checkin_str <$> rows) ∧
  trace o1 = (if existsb (needs_mark uid) rows then [FileWrite filename] else []) ∧
  o2 = Out (Ok false) (world o1) [] ∧
  (∀ f, f ≠ filename → files (world o1) !! f = files w !! f) ∧
  processed (world o1) = processed w ∧ present (world o1) = present w ∧
  meta (world o1) = meta w.
Proof.
  intros o1 o2 Hf.
  assert (existsb (needs_mark uid) rows = false →
          mark_row uid checkin_str <$> rows = rows) as Hid.
  { intros Hex. rewrite <- (list_fmap_id rows) at 2. apply list_fmap_ext.
    intros i r Hr. unfold mark_row.
    destruct (needs_mark uid r) eqn:E; [|done].
    assert (existsb (needs_mark uid) rows = true); [|congruence].
    apply existsb_exists. exists r. split; [|done].
    apply list_elem_of_In. by eapply list_elem_of_lookup_2. }
  assert (files (world o1) !! filename = Some (mark_row uid checkin_str <$> rows))
    as Hf1.
  { subst o1. rewrite update_csv_mark_present_unfold, Hf. cbv zeta.
    rewrite mark_rows_spec. cbn [fst snd].
    destruct (existsb (needs_mark uid) rows) eqn:E; cbn [world files set_files].
    - by rewrite lookup_insert_eq.
    - by rewrite Hid. }
  split; [|split; [done|split; [|split]]].
  - subst o1. rewrite update_csv_mark_present_unfold, Hf. cbv zeta.
    rewrite mark_rows_spec. cbn [fst snd]. by destruct (existsb _ _).
  - subst o1. rewrite update_csv_mark_present_unfold, Hf. cbv zeta.
    rewrite mark_rows_spec. cbn [fst snd]. by destruct (existsb _ _).
  - subst o2. rewrite update_csv_mark_present_unfold, Hf1. cbv zeta.
    rewrite mark_rows_spec. cbn [fst snd].
    by rewrite existsb_needs_mark_marked.
  - subst o1. rewrite update_csv_mark_present_unfold, Hf. cbv zeta.
    rewrite mark_rows_spec. cbn [fst snd].
    destruct (existsb _ _); cbn [world files set_files processed present meta];
      repeat split; try done.
    intros f Hne. by rewrite lookup_insert_ne.
Qed.

Lemma update_csv_mark_present_once_witness :
  let o1 := update_csv_mark_present sample_csv 2 "1970-01-02 08:00:00" sample_world in
  let o2 := update_csv_mark_present sample_csv 2 "1970-01-02 08:30:00" (world o1) in
  files sample_world !! sample_csv =
    Some [Row 1 "Ann" "Absent" ""; Row 2 "Bob" "Absent" ""] ∧
  res o1 = Ok true ∧
  files (world o1) !! sample_csv =
    Some [Row 1 "Ann" "Absent" ""; Row 2 "Bob" "Present" "1970-01-02 08:00:00"] ∧
  o2 = Out (Ok false) (world o1) [].
Proof.
  intros o1 o2.
  assert (files sample_world !! sample_csv =
            Some [Row 1 "Ann" "Absent" ""; Row 2 "Bob" "Absent" ""]) as H
    by reflexivity.
  destruct (update_csv_mark_present_once sample_csv 2 "1970-01-02 08:00:00"
              "1970-01-02 08:30:00" sample_world _ H) as (H1 & H2 & _ & H3 & _).
  split; [exact H|]. split; [exact H1|]. split; [exact H2|exact H3].
Defined.

(** X5 — A user of the roster without a row in the file. With a store that
    works, when a record gets past the check of its key, its user is in
    the roster and has no marker for the day, and the file of the poll has
    no row with the id of the user, then the marker is written to the store
    and the line that the user was marked present is printed, but no file
    is written: the files stay exactly as they are. *)
Theorem marked_without_row (fromtimestamp : Z → datetime)
    (users : gmap Z user) (csvfile : string) (rec : Attendance) (w : World)
    (u : user) (rows : list row) :
  let k := event_key rec in
  let uid := user_id rec in
  let today := day_str_for_dt (fromtimestamp k) in
  let checkin_str := device_epoch_to_local_str fromtimestamp k in
  let o := handle_rec fromtimestamp reliable users csvfile rec w in
  k ∉ processed w →
  users !! uid = Some u →
  present w !! (today, uid) = None →
  files w !! csvfile = Some rows →
  (∀ rr, rr ∈ rows → r_id rr ≠ uid) →
  res o = Ok tt ∧
  files (world o) = files w ∧
  present (world o) = <[(today, uid) := checkin_str]> (present w) ∧
  trace o = [Commit (OpMarkEpoch k);
             Commit (OpMarkPresent uid today checkin_str);
             Print (MarkedPresent (name u) uid checkin_str csvfile)].
Proof.
  intros k uid today checkin_str o Hk Hu Hnone Hf Hrows.
  assert ((mark_rows uid checkin_str rows).2 = false) as Hm.
  { rewrite mark_rows_spec. cbn [snd].
    destruct (existsb (needs_mark uid) rows) eqn:E; [|done].
    apply existsb_exists in E as (rr & Hin & Hrr).
    apply list_elem_of_In in Hin. unfold needs_mark in Hrr.
    apply andb_true_iff in Hrr as [Hid _]. apply Z.eqb_eq in Hid.
    by destruct (Hrows rr Hin). }
  subst o. rewrite handle_rec_unfold; cbv zeta. unfold reliable.
  fold (event_key rec). fold k uid today checkin_str.
  rewrite (bool_decide_false (k ∈ processed w)) by done.
  rewrite Hu, Hnone, Hf, Hm. cbn. done.
Qed.

Lemma marked_without_row_witness :
  let users : gmap Z user := {[ 1 := ann; 2 := bob; 3 := User 3 "Cat" ]} in
  let rec := Rec 3 (90000 # 1) in
  let o := handle_rec utc_fromtimestamp reliable users sample_csv rec sample_world in
  res o = Ok tt ∧ files (world o) = files sample_world ∧
  present (world o) !! ("1970-01-02", 3) = Some "1970-01-02 01:00:00".
Proof.
  intros users rec o.
  assert (event_key rec ∉ processed sample_world) as H1 by (vm_compute; set_solver).
  assert (∀ rr, rr ∈ [Row 1 "Ann" "Absent" ""; Row 2 "Bob" "Absent" ""] →
                r_id rr ≠ user_id rec) as H2.
  { intros rr Hin.
    apply elem_of_cons in Hin as [->|Hin]; [discriminate|].
    apply elem_of_cons in Hin as [->|Hin]; [discriminate|].
    by apply elem_of_nil in Hin. }
  destruct (marked_without_row utc_fromtimestamp users sample_csv rec sample_world
              (User 3 "Cat") _ H1 eq_refl eq_refl eq_refl H2) as (H3 & H4 & H5 & _).
  split; [exact H3|]. split; [exact H4|].
  exact (eq_trans (f_equal (λ m : gmap (string * Z) string, m !! ("1970-01-02", 3)) H5)
           eq_refl).
Defined.

(** X6 — What polls can do to a file. Whatever store calls fail and
    whatever rosters, files and records the polls have, after any number
    of polls every file that existed still exists with the same number of
    rows, each row has the id and the name it had, a row that was Present
    is exactly as it was, with its time, and any other row is as it was or
    has become Present: polls add and remove no rows and never reset or
    re-time a Present row. *)
Theorem polls_keep_files (fromtimestamp : Z → datetime)
    (io_fails : store_op → World → bool) (ps : list poll) (w : World)
    (f : string) (rows : list row) :
  files w !! f = Some rows →
  ∃ rows',
    files (world (polls fromtimestamp io_fails ps w)) !! f = Some rows' ∧
    length rows' = length rows ∧
    (∀ i r r', rows !! i = Some r → rows' !! i = Some r' →
       r_id r' = r_id r ∧ r_name r' = r_name r ∧
       (r_status r = "Present" → r' = r) ∧
       (r' = r ∨ r_status r' = "Present")).
Proof.
  intros Hf.
  pose proof (polls_keep fromtimestamp io_fails files_kept files_kept_refl
                files_kept_trans
                (files_kept_handle_rec fromtimestamp io_fails) ps w) as Hk.
  destruct (Hk f rows Hf) as (rows' & Hf' & Hall).
  exists rows'. split; [done|].
  split; [symmetry; by eapply Forall2_length|].
  intros i r r' Hr Hr'. by eapply (Forall2_lookup_lr _ _ _ _ _ _ Hall).
Qed.

Lemma polls_keep_files_witness :
  let ps := [(sample_roster, sample_csv, Ok [Rec 2 (90000 # 1)]);
             (sample_roster, sample_csv, Ok [Rec 2 (93600 # 1); Rec 1 (97200 # 1)])] in
  files sample_world !! sample_csv =
    Some [Row 1 "Ann" "Absent" ""; Row 2 "Bob" "Absent" ""] ∧
  files (world (polls utc_fromtimestamp reliable ps sample_world)) !! sample_csv =
    Some [Row 1 "Ann" "Present" "1970-01-02 03:00:00";
          Row 2 "Bob" "Present" "1970-01-02 01:00:00"].
Proof.
  intros ps.
  assert (files sample_world !! sample_csv =
            Some [Row 1 "Ann" "Absent" ""; Row 2 "Bob" "Absent" ""]) as H
    by reflexivity.
  destruct (polls_keep_files utc_fromtimestamp reliable ps sample_world _ _ H)
    as (rows' & _ & _).
  split; [exact H|reflexivity].
Defined.

(** ** Errors in a poll *)

Lemma handle_rec_raises_exception fromtimestamp io_fails users csvfile rec w e :
  res (handle_rec fromtimestamp io_fails users csvfile rec w) = Raise e →
  is_Exception e = true.
Proof.
  rewrite handle_rec_unfold; cbv zeta.
  repeat case_match; cbn [res]; intros [= <-]; done.
Qed.

Lemma for_each_raises_exception fromtimestamp io_fails users csvfile l w e :
  res (for_each (handle_rec fromtimestamp io_fails users csvfile) l w) = Raise e →
  is_Exception e = true.
Proof.
  revert w. induction l as [|rec l IH]; intros w; [done|].
  rewrite for_each_cons.
  destruct (res (handle_rec _ _ _ _ rec w)) eqn:E; cbn [res].
  - apply IH.
  - intros [= <-]. by eapply handle_rec_raises_exception.
Qed.

(** X7 — A poll raises nothing. Whatever store calls fail, whether or not
    the file of the poll exists, and whatever the device returns,
    [poll_once] returns normally: an error of the store or of the file is
    printed as a poll error, never raised. And when the device cannot be
    reached, the world is left as it is and the error is the only thing
    printed. *)
Theorem poll_once_raises_nothing (fromtimestamp : Z → datetime)
    (io_fails : store_op → World → bool)
    (users : gmap Z user) (csvfile : string) (recs : list Attendance) (w : World) :
  res (poll_once fromtimestamp io_fails users csvfile (Ok recs) w) = Ok tt ∧
  poll_once fromtimestamp io_fails users csvfile (Raise ZKNetworkError) w =
    Out (Ok tt) w [Print (PollError ZKNetworkError)].
Proof.
  split; [|by rewrite poll_once_unfold].
  rewrite poll_once_unfold. cbv zeta.
  destruct (res (for_each _ _ w)) as [[]|e] eqn:E; [done|].
  by rewrite (for_each_raises_exception _ _ _ _ _ _ _ E).
Qed.

(** ** Polling again *)

Lemma for_each_processed (fromtimestamp : Z → datetime) (users : gmap Z user)
    (csvfile : string) (l : list Attendance) :
  ∀ w, is_Some (files w !! csvfile) →
    ∀ k, k ∈ processed (world (for_each (handle_rec fromtimestamp reliable users csvfile) l w))
         ↔ k ∈ processed w ∨ ∃ rec, rec ∈ l ∧ event_key rec = k.
Proof.
  induction l as [|rec l IH]; intros w Hf k.
  - cbn. split; [by left|]. intros [H|(rec & Hin & _)]; [done|].
    by apply elem_of_nil in Hin.
  - rewrite for_each_cons.
    destruct (step_ok fromtimestamp users csvfile rec w Hf) as [Hres Hproc].
    rewrite Hres. cbn [world].
    rewrite IH by (by apply handle_rec_files_exist).
    rewrite Hproc, elem_of_union, elem_of_singleton. split.
    + intros [[->|H]|(rec' & Hin & Hk)]; [right|by left|right].
      * exists rec. split; [by left|done].
      * exists rec'. split; [by right|done].
    + intros [H|(rec' & Hin & Hk)]; [left; by right|].
      apply elem_of_cons in Hin as [->|Hin]; [left; by left|].
      right. by exists rec'.
Qed.

Lemma for_each_all_seen (fromtimestamp : Z → datetime)
    (io_fails : store_op → World → bool) (users : gmap Z user)
    (csvfile : string) (l : list Attendance) (w : World) :
  (∀ rec, rec ∈ l → event_key rec ∈ processed w) →
  world (for_each (handle_rec fromtimestamp io_fails users csvfile) l w) = w ∧
  trace (for_each (handle_rec fromtimestamp io_fails users csvfile) l w) = [].
Proof.
  induction l as [|rec l IH]; intros Hall; [done|].
  rewrite for_each_cons.
  destruct (handle_rec_skip fromtimestamp io_fails users csvfile rec w) as [Hw Ht].
  { apply Hall. by left. }
  destruct (res _); cbn [world trace]; rewrite Hw, Ht; [|done].
  apply IH. intros rec' Hin. apply Hall. by right.
Qed.

(** X8 — A poll processes every key it is given. With a store that works
    and the file of the poll in place, a poll ends without an error, and
    afterwards the processed keys are those that were processed before
    together with the keys of all records of the reply: no record is left
    for a later poll. *)
Theorem poll_once_processes_all (fromtimestamp : Z → datetime)
    (users : gmap Z user) (csvfile : string) (recs : list Attendance) (w : World) :
  let o := poll_once fromtimestamp reliable users csvfile (Ok recs) w in
  is_Some (files w !! csvfile) →
  o = for_each (handle_rec fromtimestamp reliable users csvfile)
        (py_sorted timestamp Qle_bool recs) w ∧
  res o = Ok tt ∧
  (∀ k, k ∈ processed (world o) ↔
        k ∈ processed w ∨ ∃ rec, rec ∈ recs ∧ event_key rec = k).
Proof.
  intros o Hf.
  assert (o = for_each (handle_rec fromtimestamp reliable users csvfile)
                (py_sorted timestamp Qle_bool recs) w) as Ho.
  { subst o. rewrite poll_once_unfold. cbv zeta.
    by rewrite for_each_step_ok. }
  split; [done|]. rewrite Ho. split; [by apply for_each_step_ok|].
  intros k. rewrite for_each_processed by done.
  split; (intros [H|(rec & Hin & Hk)]; [by left|right; exists rec; split; [|done]]).
  - by rewrite (py_sorted_perm timestamp Qle_bool) in Hin.
  - by rewrite (py_sorted_perm timestamp Qle_bool).
Qed.

Lemma poll_once_processes_all_witness :
  let recs := [Rec 1 (7200 # 1); Rec 7 (100 # 1); Rec 1 (3600 # 1)] in
  let o := poll_once utc_fromtimestamp reliable sample_roster sample_csv (Ok recs)
             sample_world in
  is_Some (files sample_world !! sample_csv) ∧ res o = Ok tt ∧
  100 ∈ processed (world o) ∧ 3600 ∈ processed (world o) ∧ 7200 ∈ processed (world o).
Proof.
  intros recs o.
  assert (is_Some (files sample_world !! sample_csv)) as H by (eexists; reflexivity).
  destruct (poll_once_processes_all utc_fromtimestamp sample_roster sample_csv recs
              sample_world H) as (_ & H1 & H2).
  split; [exact H|]. split; [exact H1|].
  split; [|split]; apply H2; right.
  - exists (Rec 7 (100 # 1)). split; [|reflexivity]. right. left.
  - exists (Rec 1 (3600 # 1)). split; [|reflexivity]. right. right. left.
  - exists (Rec 1 (7200 # 1)). split; [|reflexivity]. left.
Defined.

(** X9 — Polling the same records again changes nothing. After a poll with
    a store that works and the file of the poll in place, a poll whose
    records are among those of the first one — the device reports its whole
    log on every poll — leaves the world exactly as it is, with whatever
    roster and file it is run, as after a restart, and whatever store calls
    fail; with a store that works it also prints nothing. *)
Theorem repoll_changes_nothing (fromtimestamp : Z → datetime)
    (io_fails : store_op → World → bool)
    (users users' : gmap Z user) (csvfile csvfile' : string)
    (recs recs' : list Attendance) (w : World) :
  let o := poll_once fromtimestamp reliable users csvfile (Ok recs) w in
  is_Some (files w !! csvfile) →
  (∀ rec, rec ∈ recs' → rec ∈ recs) →
  world (poll_once fromtimestamp io_fails users' csvfile' (Ok recs') (world o))
    = world o ∧
  poll_once fromtimestamp reliable users' csvfile' (Ok recs') (world o)
    = Out (Ok tt) (world o) [].
Proof.
  intros o Hf Hsub.
  destruct (poll_once_processes_all fromtimestamp users csvfile recs w Hf)
    as (_ & _ & Hproc). fold o in Hproc.
  assert (∀ rec, rec ∈ py_sorted timestamp Qle_bool recs' →
                 event_key rec ∈ processed (world o)) as Hseen.
  { intros rec Hin. rewrite (py_sorted_perm timestamp Qle_bool) in Hin.
    apply Hproc. right. exists rec. split; [by apply Hsub|done]. }
  split.
  - rewrite poll_once_world.
    by apply (for_each_all_seen fromtimestamp io_fails users' csvfile').
  - rewrite poll_once_unfold. cbv zeta.
    destruct (for_each_all_seen fromtimestamp reliable users' csvfile' _ _ Hseen)
      as [Hw Ht].
    destruct (for_each _ _ (world o)) as [r w1 t1] eqn:E. cbn in Hw, Ht. subst.
    destruct r as [[]|e]; [done|]. cbn [res].
    assert (is_Exception e = true) as He.
    { eapply (for_each_raises_exception fromtimestamp reliable users' csvfile').
      by rewrite E. }
    exfalso. clear He.
    assert (∀ l w0, (∀ rec, rec ∈ l → event_key rec ∈ processed w0) →
              res (for_each (handle_rec fromtimestamp reliable users' csvfile') l w0)
              = Ok tt) as Hok.
    { clear. induction l as [|rec l IH]; intros w0 Hall; [done|].
      rewrite for_each_cons.
      destruct (handle_rec_skip fromtimestamp reliable users' csvfile' rec w0)
        as [Hw _]; [apply Hall; by left|].
      assert (res (handle_rec fromtimestamp reliable users' csvfile' rec w0) = Ok tt)
        as ->.
      { rewrite handle_rec_unfold; cbv zeta. unfold reliable.
        rewrite (bool_decide_true (_ ∈ processed w0)); [done|].
        apply Hall. by left. }
      cbn [res]. rewrite Hw. apply IH. intros rec' Hin. apply Hall. by right. }
    specialize (Hok _ _ Hseen). rewrite E in Hok. discriminate.
Qed.

Lemma repoll_changes_nothing_witness :
  let recs := [Rec 1 (7200 # 1); Rec 7 (100 # 1); Rec 1 (3600 # 1)] in
  let o := poll_once utc_fromtimestamp reliable sample_roster sample_csv (Ok recs)
             sample_world in
  is_Some (files sample_world !! sample_csv) ∧
  poll_once utc_fromtimestamp reliable (∅ : gmap Z user) "elsewhere.csv"
    (Ok (reverse recs)) (world o) = Out (Ok tt) (world o) [].
Proof.
  intros recs o.
  assert (is_Some (files sample_world !! sample_csv)) as H by (eexists; reflexivity).
  assert (∀ rec, rec ∈ reverse recs → rec ∈ recs) as Hsub.
  { intros rec Hin. by apply elem_of_reverse in Hin. }
  destruct (repoll_changes_nothing utc_fromtimestamp reliable sample_roster ∅
              sample_csv "elsewhere.csv" recs (reverse recs) sample_world H Hsub)
    as [_ H1].
  split; [exact H|exact H1].
Defined.

(** ** The day check, again *)

Lemma ensure_csv_for_today_post (ROLLOVER_HOUR : Z) (users : gmap Z user)
    (now : datetime) (w : World) :
  let daystr := isoformat (active_day ROLLOVER_HOUR now) in
  let o1 := ensure_csv_for_today reliable ROLLOVER_HOUR users now w in
  res o1 = Ok (attendance_file daystr, daystr) ∧
  meta (world o1) !! CURRENT_CSV_DATE = Some daystr ∧
  is_Some (files (world o1) !! attendance_file daystr) ∧
  users_csv (world o1) = users_csv w.
Proof.
  intros daystr o1. subst o1. rewrite ensure_csv_for_today_unfold. cbv zeta.
  fold daystr. set (csvfile := attendance_file daystr).
  destruct (bool_decide (meta w !! CURRENT_CSV_DATE ≠ Some daystr)) eqn:E1;
    [|destruct (bool_decide (is_Some (files w !! csvfile))) eqn:E2];
    cbn [orb negb res world trace meta files users_csv set_meta_table set_files].
  - rewrite !lookup_insert_eq. eauto.
  - apply bool_decide_eq_false in E1. apply bool_decide_eq_true in E2.
    split; [done|]. split; [|done].
    destruct (meta w !! CURRENT_CSV_DATE) as [v|] eqn:Hv.
    + destruct (decide (v = daystr)) as [->|Hne]; [done|].
      exfalso. apply E1. congruence.
    + exfalso. by apply E1.
  - rewrite !lookup_insert_eq. eauto.
Qed.

(** X10 — Ensuring the file twice. With a store that works for the day
    check, after [ensure_csv_for_today] and any number of polls, a second
    call at a time with the same active day, with whatever roster, returns
    the same file and day and does nothing: the file, with the rows that
    the polls have turned Present, and the pointer stay as they are. *)
Theorem ensure_csv_for_today_twice (fromtimestamp : Z → datetime)
    (io_fails : store_op → World → bool) (ROLLOVER_HOUR : Z)
    (users users' : gmap Z user) (now now' : datetime) (w : World)
    (ps : list poll) :
  let o1 := ensure_csv_for_today reliable ROLLOVER_HOUR users now w in
  let w' := world (polls fromtimestamp io_fails ps (world o1)) in
  active_day ROLLOVER_HOUR now' = active_day ROLLOVER_HOUR now →
  res o1 = Ok (attendance_file (isoformat (active_day ROLLOVER_HOUR now)),
               isoformat (active_day ROLLOVER_HOUR now)) ∧
  ensure_csv_for_today reliable ROLLOVER_HOUR users' now' w' = Out (res o1) w' [].
Proof.
  intros o1 w' Hday.
  set (daystr := isoformat (active_day ROLLOVER_HOUR now)).
  set (csvfile := attendance_file daystr).
  destruct (ensure_csv_for_today_post ROLLOVER_HOUR users now w)
    as (Hres & Hmeta & Hfile & _).
  fold o1 daystr csvfile in Hres, Hmeta, Hfile.
  split; [done|].
  assert (meta w' = meta (world o1) ∧
          (∀ f, is_Some (files (world o1) !! f) → is_Some (files w' !! f)))
    as [Hm Hf].
  { subst w'.
    apply (polls_keep fromtimestamp io_fails
             (λ w1 w2, meta w2 = meta w1 ∧
                       (∀ f, is_Some (files w1 !! f) → is_Some (files w2 !! f)))).
    - done.
    - intros w1 w2 w3 [H1 H2] [H3 H4]. split; [congruence|auto].
    - intros users0 csv0 rec0 w0. split.
      + apply handle_rec_meta.
      + intros f. apply handle_rec_files_exist. }
  rewrite ensure_csv_for_today_unfold. cbv zeta. rewrite Hday.
  fold daystr csvfile. rewrite Hm, Hmeta.
  rewrite (bool_decide_false (Some daystr ≠ Some daystr)) by (intros H; by apply H).
  rewrite (bool_decide_true (is_Some (files w' !! csvfile))) by auto.
  cbn [orb negb]. by rewrite Hres.
Qed.

Lemma ensure_csv_for_today_twice_witness :
  let now := DateTime (Date 1970 1 2) 9 0 0 in
  let now' := DateTime (Date 1970 1 2) 9 0 3 in
  let ps := [(sample_roster, sample_csv, Ok [Rec 2 (90000 # 1)])] in
  let o1 := ensure_csv_for_today reliable 0 sample_roster now fresh_world in
  let w' := world (polls utc_fromtimestamp reliable ps (world o1)) in
  active_day 0 now' = active_day 0 now ∧
  ensure_csv_for_today reliable 0 sample_roster now' w' = Out (res o1) w' [] ∧
  files w' !! sample_csv =
    Some [Row 1 "Ann" "Absent" ""; Row 2 "Bob" "Present" "1970-01-02 01:00:00"].
Proof.
  intros now now' ps o1 w'.
  assert (active_day 0 now' = active_day 0 now) as H by reflexivity.
  destruct (ensure_csv_for_today_twice utc_fromtimestamp reliable 0 sample_roster
              sample_roster now now' fresh_world ps H) as [_ H1].
  split; [exact H|]. split; [exact H1|reflexivity].
Defined.


(** A roster file with a line whose id is no number: the day check of a
    new day leaves the loop with the [ValueError] of that line, after the
    file of the new day was made. *)
Example day_check_malformed_roster :
  let w := mkWorld ∅ ∅ ∅ ∅ (Some [csv_line "1" "Ann"; csv_line "two" "Bob"]) in
  let ls := LoopState sample_roster (attendance_file "1970-01-01") "1970-01-01" in
  let o := day_check reliable 0 (DateTime (Date 1970 1 2) 0 0 5) ls w in
  res o = Raise (ValueError "two") ∧
  is_Some (files (world o) !! attendance_file "1970-01-02").
Proof. split; [reflexivity|]. vm_compute. eauto. Qed.

(** X12 — A store failure in the day check is not contained. When reading
    the pointer fails at the start of an iteration of the loop, the
    iteration raises the error of the store: nothing has been written or
    printed, the device is not polled, and no handler of the loop catches
    the error — unlike a failure inside [poll_once], which is printed. *)
Theorem day_check_failure_escapes (fromtimestamp : Z → datetime)
    (io_fails : store_op → World → bool) (ROLLOVER_HOUR : Z) (now : datetime)
    (device : result (list Attendance)) (ls : loop_state) (w : World) :
  io_fails (OpGetMeta CURRENT_CSV_DATE) w = true →
  loop_body fromtimestamp io_fails ROLLOVER_HOUR now device ls w =
    Out (Raise (OperationalError (OpGetMeta CURRENT_CSV_DATE))) w [].
Proof.
  intros Hfail. unfold loop_body, day_check, ensure_csv_for_today.
  rewrite !bind_unfold, get_meta_unfold, Hfail. reflexivity.
Qed.

Lemma day_check_failure_escapes_witness :
  let ls := LoopState sample_roster sample_csv "1970-01-02" in
  loop_body utc_fromtimestamp fails_on_get_meta 0 (DateTime (Date 1970 1 2) 9 0 0)
    (Ok [Rec 1 (90000 # 1)]) ls sample_world =
  Out (Raise (OperationalError (OpGetMeta CURRENT_CSV_DATE))) sample_world [] ∧
  res (poll_once utc_fromtimestamp fails_on_get_meta sample_roster sample_csv
         (Ok [Rec 1 (90000 # 1)]) sample_world) = Ok tt.
Proof.
  intros ls. split; [|reflexivity].
  exact (day_check_failure_escapes utc_fromtimestamp fails_on_get_meta 0
           (DateTime (Date 1970 1 2) 9 0 0) (Ok [Rec 1 (90000 # 1)]) ls
           sample_world eq_refl).
Defined.

(** ** The files of other days *)

Lemma string_app_length (s t : string) :
  String.length (s +:+ t) = (String.length s + String.length t)%nat.
Proof. induction s as [|a s IH]; simpl; [done|]. by rewrite IH. Qed.

Lemma string_app_inv_tail (s1 s2 t : string) : s1 +:+ t = s2 +:+ t → s1 = s2.
Proof.
  revert s2. induction s1 as [|a s1 IH]; intros [|b s2] H; [done| | |].
  - apply (f_equal String.length) in H.
    rewrite (string_app_length "" t), (string_app_length (String b s2) t) in H.
    simpl in H. lia.
  - apply (f_equal String.length) in H.
    rewrite (string_app_length "" t), (string_app_length (String a s1) t) in H.
    simpl in H. lia.
  - simpl in H. injection H as -> H. f_equal. by apply IH.
Qed.

Lemma attendance_file_inj (day1 day2 : string) :
  attendance_file day1 = attendance_file day2 → day1 = day2.
Proof.
  unfold attendance_file, path_join, OUTPUT_DIR. cbn. intros [= H].
  exact (string_app_inv_tail day1 day2 ".csv" H).
Qed.

Lemma touches_only_bind (f0 : string) {A B} (m : M A) (f : A → M B) :
  touches_only f0 m → (∀ a, touches_only f0 (f a)) → touches_only f0 (m ≫= f).
Proof.
  intros Hm Hf w g Hg. rewrite bind_unfold. specialize (Hm w g Hg).
  destruct (res (m w)) as [a|e]; cbn [world]; [|done].
  by rewrite (Hf a (world (m w)) g Hg).
Qed.

Lemma touches_only_quiet (f0 : string) {A} (m : M A) :
  (∀ w, files (world (m w)) = files w) → touches_only f0 m.
Proof. intros H w g _. by rewrite H. Qed.

Lemma touches_only_sql (io_fails : store_op → World → bool) (f0 : string) {A}
    (op : store_op) (body : M A) :
  touches_only f0 body → touches_only f0 (sql io_fails op body).
Proof. intros H w g Hg. unfold sql. destruct (io_fails op w); [done|by apply H]. Qed.

Lemma touches_only_load_users (f0 : string) : touches_only f0 load_users.
Proof.
  apply touches_only_quiet. intros w. by rewrite load_users_unfold.
Qed.

Lemma touches_only_ensure (io_fails : store_op → World → bool) (ROLLOVER_HOUR : Z)
    (users : gmap Z user) (now : datetime) :
  touches_only (attendance_file (isoformat (active_day ROLLOVER_HOUR now)))
    (ensure_csv_for_today io_fails ROLLOVER_HOUR users now).
Proof.
  unfold ensure_csv_for_today.
  apply touches_only_bind.
  { apply touches_only_sql, touches_only_quiet. done. }
  intros current. apply touches_only_bind; [by apply touches_only_quiet|].
  intros w0. apply touches_only_bind; [|intros; by apply touches_only_quiet].
  destruct (_ || _); [|by apply touches_only_quiet].
  apply touches_only_bind; [|intros; by apply touches_only_quiet].
  unfold make_daily_csv.
  apply touches_only_bind.
  { intros w g Hg. cbn. by rewrite lookup_insert_ne. }
  intros _. apply touches_only_bind; [by apply touches_only_quiet|].
  intros _. apply touches_only_bind.
  { apply touches_only_sql, touches_only_bind; [|intros; by apply touches_only_quiet].
    by apply touches_only_quiet. }
  intros _. apply touches_only_bind; intros; by apply touches_only_quiet.
Qed.

Lemma ensure_csv_for_today_result (io_fails : store_op → World → bool)
    (ROLLOVER_HOUR : Z) (users : gmap Z user) (now : datetime) (w : World)
    (p : string * string) :
  res (ensure_csv_for_today io_fails ROLLOVER_HOUR users now w) = Ok p →
  p = (attendance_file (isoformat (active_day ROLLOVER_HOUR now)),
       isoformat (active_day ROLLOVER_HOUR now)).
Proof.
  unfold ensure_csv_for_today. rewrite bind_unfold, get_meta_unfold.
  destruct (io_fails _ _); cbn [res world trace]; [done|].
  rewrite bind_unfold. cbn [get res world trace]. rewrite bind_unfold.
  match goal with
  | |- context [res (?m w)] =>
      lazymatch m with
      | (if _ then _ else _) => destruct (res (m w)) as [[]|e]
      end
  end; cbn [res]; [|done].
  cbn. by intros [= <-].
Qed.

(** X13 — An iteration of the loop writes no file but the one of the
    active day. Whatever store calls fail and whatever the device returns,
    one iteration of the loop, day check and poll, leaves every file other
    than the attendance file of the active day as it is; files of different
    days have different names, so the file of any other day, with the
    attendance it records, is never altered. *)
Theorem loop_body_other_days (fromtimestamp : Z → datetime)
    (io_fails : store_op → World → bool) (ROLLOVER_HOUR : Z) (now : datetime)
    (device : result (list Attendance)) (ls : loop_state) (w : World)
    (day : string) :
  let o := loop_body fromtimestamp io_fails ROLLOVER_HOUR now device ls w in
  day ≠ isoformat (active_day ROLLOVER_HOUR now) →
  attendance_file day ≠ attendance_file (isoformat (active_day ROLLOVER_HOUR now)) ∧
  files (world o) !! attendance_file day = files w !! attendance_file day.
Proof.
  intros o Hday.
  set (daystr := isoformat (active_day ROLLOVER_HOUR now)) in *.
  assert (attendance_file day ≠ attendance_file daystr) as Hne.
  { intros H. by apply attendance_file_inj in H. }
  split; [done|].
  assert (touches_only (attendance_file daystr)
            (day_check io_fails ROLLOVER_HOUR now ls)) as Hdc.
  { unfold day_check. apply touches_only_bind; [apply touches_only_ensure|].
    intros [csvfile newday]. destruct (bool_decide _).
    - apply touches_only_bind; [apply touches_only_load_users|].
      intros users. apply touches_only_bind; intros; by apply touches_only_quiet.
    - by apply touches_only_quiet. }
  assert (∀ ls', res (day_check io_fails ROLLOVER_HOUR now ls w) = Ok ls' →
                 ls_csvfile ls' = attendance_file daystr) as Hcsv.
  { intros ls'. unfold day_check. rewrite bind_unfold.
    destruct (res (ensure_csv_for_today _ _ _ _ _)) as [[csvfile newday]|e] eqn:E;
      cbn [res]; [|done].
    apply ensure_csv_for_today_result in E. injection E as -> ->.
    destruct (bool_decide _).
    - rewrite bind_unfold. destruct (res (load_users _)); cbn [res]; [|done].
      cbv [mbind M_bind bind print emit mret M_ret ret]. cbn. by intros [= <-].
    - cbn. by intros [= <-]. }
  subst o. unfold loop_body. rewrite bind_unfold.
  specialize (Hdc w _ Hne).
  destruct (res (day_check io_fails ROLLOVER_HOUR now ls w)) as [ls'|e] eqn:E;
    cbn [world]; [|done].
  rewrite <- Hdc. specialize (Hcsv ls' eq_refl).
  set (w1 := world (day_check io_fails ROLLOVER_HOUR now ls w)).
  assert (files (world (poll_once fromtimestamp io_fails (ls_users ls')
                          (ls_csvfile ls') device w1)) !! attendance_file day
          = files w1 !! attendance_file day) as Hp.
  { rewrite poll_once_world. destruct device as [recs|e0]; [|done].
    apply (for_each_world
             (λ wa wb, files wb !! attendance_file day = files wa !! attendance_file day)).
    - done.
    - intros wa wb wc H1 H2. congruence.
    - intros rec wa. apply handle_rec_files_other. by rewrite Hcsv. }
  rewrite bind_unfold.
  destruct (res (poll_once _ _ _ _ _ _)); cbn [world]; exact Hp.
Qed.

Lemma loop_body_other_days_witness :
  let now := DateTime (Date 1970 1 3) 9 0 0 in
  let ls := LoopState sample_roster sample_csv "1970-01-02" in
  let o := loop_body utc_fromtimestamp reliable 0 now (Ok [Rec 1 (90000 # 1)]) ls
             sample_world in
  "1970-01-02" ≠ isoformat (active_day 0 now) ∧
  files (world o) !! attendance_file "1970-01-02" =
    Some [Row 1 "Ann" "Absent" ""; Row 2 "Bob" "Absent" ""] ∧
  files (world o) !! attendance_file "1970-01-03" =
    Some [Row 1 "Ann" "Present" "1970-01-02 01:00:00"; Row 2 "Bob" "Absent" ""].
Proof.
  intros now ls o.
  assert ("1970-01-02" ≠ isoformat (active_day 0 now)) as H by discriminate.
  destruct (loop_body_other_days utc_fromtimestamp reliable 0 now
              (Ok [Rec 1 (90000 # 1)]) ls sample_world "1970-01-02" H) as [_ H1].
  split; [exact H|]. split; [|reflexivity].
  exact (eq_trans H1 eq_refl).
Defined.

(** ** The present table over time *)

Lemma local_str_dated (fromtimestamp : Z → datetime) (epoch : Z) :
  ∃ rest, device_epoch_to_local_str fromtimestamp epoch =
          day_str_for_dt (fromtimestamp epoch) +:+ " " +:+ rest.
Proof. eexists. unfold device_epoch_to_local_str, strftime, day_str_for_dt. done. Qed.

Lemma markers_dated_handle_rec fromtimestamp io_fails users csvfile rec w :
  markers_dated w →
  markers_dated (world (handle_rec fromtimestamp io_fails users csvfile rec w)).
Proof.
  intros Hw day uid s.
  destruct (handle_rec_present fromtimestamp io_fails users csvfile rec w)
    as [->|(_ & _ & _ & ->)]; [apply Hw|].
  destruct (decide ((day_str_for_dt (fromtimestamp (event_key rec)), user_id rec)
                    = (day, uid))) as [[= <- <-]|Hne].
  - rewrite lookup_insert_eq. intros [= <-].
    split; [apply local_str_nonempty|apply local_str_dated].
  - rewrite lookup_insert_ne by done. apply Hw.
Qed.

(** X14 — The present table only grows. From a store whose markers each
    hold a text that starts with the day they are filed under, as the
    empty store of a first start does, in every later world — after
    records, polls, day checks, restarts, whatever store calls fail — the
    markers still do, and every marker that was there is there with the
    same value: no marker is ever removed or changed, and a stored time
    always lies on the day of its marker. *)
Theorem present_table_only_grows (fromtimestamp : Z → datetime)
    (io_fails : store_op → World → bool) (w w' : World) :
  markers_dated w →
  later fromtimestamp io_fails w w' →
  markers_dated w' ∧
  (∀ day uid s, present w !! (day, uid) = Some s →
                present w' !! (day, uid) = Some s).
Proof.
  intros Hw Hlater. split.
  - induction Hlater as [|w w' users csvfile rec H IH|w w' rh now ls H IH]; [done| |].
    + apply markers_dated_handle_rec. by apply IH.
    + intros day uid s.
      destruct (keeps_store_day_check io_fails rh now ls w') as [_ ->].
      by apply IH.
  - intros day uid s Hs.
    apply (later_marker_kept _ _ _ _ _ _ _ Hlater Hs).
    by destruct (Hw day uid s Hs).
Qed.

Lemma present_table_only_grows_witness :
  let ls := LoopState sample_roster sample_csv "1970-01-02" in
  let w1 := world (loop_body utc_fromtimestamp reliable 0
                     (DateTime (Date 1970 1 2) 9 0 0)
                     (Ok [Rec 2 (90000 # 1)]) ls sample_world) in
  let w2 := world (loop_body utc_fromtimestamp reliable 0
                     (DateTime (Date 1970 1 3) 9 0 0)
                     (Ok [Rec 2 (90000 # 1); Rec 2 (93600 # 1)]) ls w1) in
  markers_dated w1 ∧ later utc_fromtimestamp reliable w1 w2 ∧
  present w1 !! ("1970-01-02", 2) = Some "1970-01-02 01:00:00" ∧
  present w2 !! ("1970-01-02", 2) = Some "1970-01-02 01:00:00".
Proof.
  intros ls w1 w2.
  assert (markers_dated sample_world) as H0.
  { intros day uid s Hs. vm_compute in Hs. discriminate. }
  assert (later utc_fromtimestamp reliable sample_world w1) as L1.
  { apply later_loop_body, later_now. }
  assert (later utc_fromtimestamp reliable w1 w2) as L2.
  { apply later_loop_body, later_now. }
  destruct (present_table_only_grows utc_fromtimestamp reliable sample_world w1 H0 L1)
    as [H1 _].
  destruct (present_table_only_grows utc_fromtimestamp reliable w1 w2 H1 L2)
    as [_ H2].
  split; [exact H1|]. split; [exact L2|]. split; [reflexivity|].
  apply H2. reflexivity.
Defined.

(** X15 — Which markers a poll can change. Whatever store calls fail, when
    the marker of a user and a day is not the same after a poll as before,
    then the user is in the roster of the poll and the reply of the device
    holds a record of that user on that day whose time is the value of the
    marker after the poll: a poll makes no marker for a user outside the
    roster, for a day without a record, or with a time that is not the time
    of a record. *)
Theorem poll_once_marker_changes (fromtimestamp : Z → datetime)
    (io_fails : store_op → World → bool)
    (users : gmap Z user) (csvfile : string) (recs : list Attendance)
    (w : World) (day : string) (uid : Z) :
  let o := poll_once fromtimestamp io_fails users csvfile (Ok recs) w in
  present (world o) !! (day, uid) ≠ present w !! (day, uid) →
  is_Some (users !! uid) ∧
  ∃ rec, rec ∈ recs ∧ user_id rec = uid ∧
         day_str_for_dt (fromtimestamp (event_key rec)) = day ∧
         present (world o) !! (day, uid) =
           Some (device_epoch_to_local_str fromtimestamp (event_key rec)).
Proof.
  intros o. subst o. rewrite poll_once_world.
  assert (∀ l w0,
            present (world (for_each (handle_rec fromtimestamp io_fails users csvfile)
                              l w0)) !! (day, uid) ≠ present w0 !! (day, uid) →
            is_Some (users !! uid) ∧
            ∃ rec, rec ∈ l ∧ user_id rec = uid ∧
                   day_str_for_dt (fromtimestamp (event_key rec)) = day ∧
                   present (world (for_each (handle_rec fromtimestamp io_fails users
                                               csvfile) l w0)) !! (day, uid) =
                     Some (device_epoch_to_local_str fromtimestamp (event_key rec)))
    as Hloop.
  { induction l as [|rec l IH]; intros w0; [done|].
    rewrite for_each_cons.
    set (w1 := world (handle_rec fromtimestamp io_fails users csvfile rec w0)).
    assert (present w1 !! (day, uid) ≠ present w0 !! (day, uid) →
            is_Some (users !! uid) ∧ user_id rec = uid ∧
            day_str_for_dt (fromtimestamp (event_key rec)) = day ∧
            present w1 !! (day, uid) =
              Some (device_epoch_to_local_str fromtimestamp (event_key rec)))
      as Hstep.
    { subst w1.
      destruct (handle_rec_present fromtimestamp io_fails users csvfile rec w0)
        as [->|(_ & Hin & _ & ->)]; [done|].
      destruct (decide ((day_str_for_dt (fromtimestamp (event_key rec)), user_id rec)
                        = (day, uid))) as [[= <- <-]|Hne].
      - rewrite lookup_insert_eq. done.
      - rewrite lookup_insert_ne by done. done. }
    destruct (res (handle_rec _ _ _ _ rec w0)); cbn [world]; fold w1.
    - destruct (decide (present (world (for_each (handle_rec fromtimestamp io_fails
                                                    users csvfile) l w1)) !! (day, uid)
                        = present w1 !! (day, uid))) as [Heq|Hne].
      + rewrite Heq. intros Hch. destruct (Hstep Hch) as (Hu & Hid & Hd & Hv).
        split; [done|]. exists rec. split; [by left|done].
      + intros _. destruct (IH w1 Hne) as (Hu & rec' & Hin & Hrest).
        split; [done|]. exists rec'. split; [by right|done].
    - intros Hch. destruct (Hstep Hch) as (Hu & Hid & Hd & Hv).
      split; [done|]. exists rec. split; [by left|done]. }
  intros Hch. destruct (Hloop _ _ Hch) as (Hu & rec & Hin & Hrest).
  split; [done|]. exists rec. split; [|done].
  by rewrite (py_sorted_perm timestamp Qle_bool) in Hin.
Qed.

Lemma poll_once_marker_changes_witness :
  let recs := [Rec 7 (90000 # 1); Rec 2 (93600 # 1)] in
  let o := poll_once utc_fromtimestamp reliable sample_roster sample_csv (Ok recs)
             sample_world in
  present (world o) !! ("1970-01-02", 2) ≠ present sample_world !! ("1970-01-02", 2) ∧
  is_Some (sample_roster !! 2) ∧
  present (world o) !! ("1970-01-02", 7) = None.
Proof.
  intros recs o.
  assert (present (world o) !! ("1970-01-02", 2)
          ≠ present sample_world !! ("1970-01-02", 2)) as H by discriminate.
  destruct (poll_once_marker_changes utc_fromtimestamp reliable sample_roster
              sample_csv recs sample_world "1970-01-02" 2 H) as [H1 _].
  split; [exact H|]. split; [exact H1|reflexivity].
Defined.

(** X16 — A record interrupted after its key was marked is lost. When
    handling a record raises an error after the key of the record was
    marked processed — the file of the poll is missing, or a store call
    after the marking fails — then no marker was written for it, and in
    every later world the record, reported again by the device, is skipped:
    it is never applied. *)
Theorem interrupted_record_is_lost (fromtimestamp : Z → datetime)
    (io_fails : store_op → World → bool)
    (users users' : gmap Z user) (csvfile csvfile' : string)
    (rec : Attendance) (w w' : World) (e : exn) :
  let o := handle_rec fromtimestamp io_fails users csvfile rec w in
  let again := handle_rec fromtimestamp io_fails users' csvfile' rec w' in
  res o = Raise e →
  In (Commit (OpMarkEpoch (event_key rec))) (trace o) →
  later fromtimestamp io_fails (world o) w' →
  present (world o) = present w ∧
  event_key rec ∈ processed w' ∧
  world again = w' ∧ trace again = [].
Proof.
  intros o again Hres Hin Hlater.
  assert (present (world o) = present w ∧ event_key rec ∈ processed (world o))
    as [Hp Hk].
  { subst o. revert Hres Hin. unfold event_key.
    rewrite handle_rec_unfold; cbv zeta.
    repeat case_match; cbn [res world trace present processed set_processed
                            set_files set_present app In];
      intros Hres Hin; try discriminate; try (by destruct Hin);
      (split; [done|apply elem_of_union; left; by apply elem_of_singleton]). }
  split; [done|].
  assert (event_key rec ∈ processed w') as Hk'.
  { by apply (later_processed_mono _ _ _ _ Hlater). }
  split; [done|]. by apply handle_rec_skip.
Qed.

Lemma interrupted_record_is_lost_witness :
  let rec := Rec 2 (90000 # 1) in
  let o := handle_rec utc_fromtimestamp fails_on_is_marked sample_roster sample_csv
             rec sample_world in
  let w' := world (polls utc_fromtimestamp fails_on_is_marked
                     [(sample_roster, sample_csv, Ok [rec])] (world o)) in
  res o = Raise (OperationalError (OpIsMarked 2 "1970-01-02")) ∧
  In (Commit (OpMarkEpoch (event_key rec))) (trace o) ∧
  present w' !! ("1970-01-02", 2) = None ∧
  world (handle_rec utc_fromtimestamp fails_on_is_marked sample_roster sample_csv
           rec w') = w'.
Proof.
  intros rec o w'.
  assert (res o = Raise (OperationalError (OpIsMarked 2 "1970-01-02"))) as H1
    by reflexivity.
  assert (In (Commit (OpMarkEpoch (event_key rec))) (trace o)) as H2
    by (left; reflexivity).
  assert (later utc_fromtimestamp fails_on_is_marked (world o) w') as HL.
  { apply later_polls, later_now. }
  destruct (interrupted_record_is_lost utc_fromtimestamp fails_on_is_marked
              sample_roster sample_roster sample_csv sample_csv rec sample_world w'
              _ H1 H2 HL) as (_ & _ & H3 & _).
  split; [exact H1|]. split; [exact H2|]. split; [reflexivity|exact H3].
Defined.

(** ** The log of a poll *)

Lemma step_prints (fromtimestamp : Z → datetime) (users : gmap Z user)
    (csvfile : string) (rec : Attendance) (w : World) :
  let t := trace (handle_rec fromtimestamp reliable users csvfile rec w) in
  is_Some (files w !! csvfile) →
  length (List.filter is_print t) =
    (if bool_decide (event_key rec ∈ processed w) then 0 else 1)%nat ∧
  (∀ e, Print (PollError e) ∉ t).
Proof.
  intros t [rows Hf]. subst t. unfold event_key.
  rewrite handle_rec_unfold; cbv zeta; unfold reliable. rewrite Hf.
  destruct (bool_decide (py_int (timestamp rec) ∈ processed w)); cbn [trace].
  { split; [done|]. intros e H. by apply elem_of_nil in H. }
  repeat case_match; cbn [trace app List.filter is_print length];
    (split; [done|]); intros e Hmem;
    repeat (apply elem_of_cons in Hmem as [Hmem|Hmem]; [discriminate|]);
    by apply elem_of_nil in Hmem.
Qed.

(** X17 — The log of a poll. With a store that works and the file of the
    poll in place, a poll prints exactly one line for every record that
    gets past the check of its key — the unknown user, the repeated scan,
    or the marking — none for a record that is skipped, and no poll
    error. *)
Theorem poll_once_log (fromtimestamp : Z → datetime)
    (users : gmap Z user) (csvfile : string) (recs : list Attendance) (w : World) :
  let o := poll_once fromtimestamp reliable users csvfile (Ok recs) w in
  is_Some (files w !! csvfile) →
  length (List.filter is_print (trace o)) =
    length (fresh_recs (processed w) (py_sorted timestamp Qle_bool recs)) ∧
  (∀ e, Print (PollError e) ∉ trace o).
Proof.
  intros o Hf.
  assert (o = for_each (handle_rec fromtimestamp reliable users csvfile)
                (py_sorted timestamp Qle_bool recs) w) as ->.
  { subst o. rewrite poll_once_unfold. cbv zeta. by rewrite for_each_step_ok. }
  generalize (py_sorted timestamp Qle_bool recs). intros l.
  revert w Hf. induction l as [|rec l IH]; intros w Hf.
  { split; [done|]. intros e H. by apply elem_of_nil in H. }
  rewrite for_each_cons.
  destruct (step_ok fromtimestamp users csvfile rec w Hf) as [Hres Hproc].
  destruct (step_prints fromtimestamp users csvfile rec w Hf) as [Hlen Hno].
  rewrite Hres. cbn [trace fresh_recs].
  destruct (IH (world (handle_rec fromtimestamp reliable users csvfile rec w)))
    as [IHlen IHno]; [by apply handle_rec_files_exist|].
  rewrite List.filter_app, length_app, Hlen, IHlen, Hproc. split.
  - destruct (bool_decide (event_key rec ∈ processed w)) eqn:E; [|done].
    apply bool_decide_eq_true in E. cbn. do 2 f_equal.
    apply set_eq; intros x; rewrite elem_of_union, elem_of_singleton.
    split; [by intros [->|?]|by right].
  - intros e H. apply elem_of_app in H as [H|H]; [by eapply Hno|by eapply IHno].
Qed.

Lemma poll_once_log_witness :
  let recs := [Rec 1 (7200 # 1); Rec 7 (100 # 1); Rec 1 (3600 # 1); Rec 2 (3600 # 1)] in
  let o := poll_once utc_fromtimestamp reliable sample_roster sample_csv (Ok recs)
             sample_world in
  is_Some (files sample_world !! sample_csv) ∧
  length (List.filter is_print (trace o)) = 3%nat.
Proof.
  intros recs o.
  assert (is_Some (files sample_world !! sample_csv)) as H by (eexists; reflexivity).
  destruct (poll_once_log utc_fromtimestamp sample_roster sample_csv recs
              sample_world H) as [H1 _].
  split; [exact H|]. exact (eq_trans H1 eq_refl).
Defined.

(** ** A file made again *)

(** X18 — A file that is made again is not repaired from the store. With a
    store that works, when the day check makes the file of the active day
    although a user of the roster already has a marker for that day — the
    file was deleted, or the pointer was off — then the row of that user in
    the new file is Absent, the marker stays, and handling any further
    record of the user on that day, whatever store calls fail, changes
    neither the file nor the marker: for such records the row stays
    Absent. *)
Theorem remade_file_not_repaired (fromtimestamp : Z → datetime)
    (io_fails : store_op → World → bool) (ROLLOVER_HOUR : Z)
    (users users' : gmap Z user) (now : datetime) (w : World)
    (uid : Z) (u : user) (s : string) (csvfile' : string) (rec : Attendance) :
  let daystr := isoformat (active_day ROLLOVER_HOUR now) in
  let csvfile := attendance_file daystr in
  let w1 := world (ensure_csv_for_today reliable ROLLOVER_HOUR users now w) in
  let o := handle_rec fromtimestamp io_fails users' csvfile' rec w1 in
  meta w !! CURRENT_CSV_DATE ≠ Some daystr ∨ files w !! csvfile = None →
  users !! uid = Some u →
  present w !! (daystr, uid) = Some s → s ≠ "" →
  user_id rec = uid →
  day_str_for_dt (fromtimestamp (event_key rec)) = daystr →
  (∃ rows, files w1 !! csvfile = Some rows ∧ Row uid (name u) "Absent" "" ∈ rows ∧
           ∀ rr, rr ∈ rows → r_id rr = uid → r_status rr = "Absent") ∧
  present w1 !! (daystr, uid) = Some s ∧
  files (world o) = files w1 ∧ present (world o) = present w1.
Proof.
  intros daystr csvfile w1 o Hcond Hu Hs Hne Huid Hday.
  assert (bool_decide (meta w !! CURRENT_CSV_DATE ≠ Some daystr)
          || negb (bool_decide (is_Some (files w !! csvfile))) = true) as Hb.
  { destruct Hcond as [Hm|Hf].
    - by rewrite (bool_decide_true (meta w !! CURRENT_CSV_DATE ≠ Some daystr)).
    - rewrite (bool_decide_false (is_Some (files w !! csvfile))).
      + by rewrite orb_true_r.
      + rewrite Hf. by intros [? ?]. }
  assert (files w1 !! csvfile = Some (absent_rows users) ∧ present w1 = present w)
    as [Hfile Hpres].
  { subst w1. rewrite ensure_csv_for_today_unfold. cbv zeta.
    fold daystr csvfile. rewrite Hb.
    cbn [world files present set_meta_table set_files].
    by rewrite lookup_insert_eq. }
  destruct (absent_rows_spec users) as [_ Hrows].
  split; [|split].
  - exists (absent_rows users). split; [done|]. split.
    + apply Hrows. exists u. done.
    + intros rr Hin _. apply Hrows in Hin as (u' & _ & ->). done.
  - by rewrite Hpres.
  - destruct (handle_rec_already fromtimestamp io_fails users' csvfile' rec w1 s)
      as (Hp & Hf & _); [|done|done].
    by rewrite Hday, Huid, Hpres.
Qed.

Lemma remade_file_not_repaired_witness :
  let w := world (poll_once utc_fromtimestamp reliable sample_roster sample_csv
                    (Ok [Rec 2 (90000 # 1)]) sample_world) in
  let gone := set_files (delete sample_csv) w in
  let now := DateTime (Date 1970 1 2) 10 0 0 in
  let w1 := world (ensure_csv_for_today reliable 0 sample_roster now gone) in
  let o := handle_rec utc_fromtimestamp reliable sample_roster sample_csv
             (Rec 2 (93600 # 1)) w1 in
  files gone !! sample_csv = None ∧
  present gone !! ("1970-01-02", 2) = Some "1970-01-02 01:00:00" ∧
  files w1 !! sample_csv = Some [Row 1 "Ann" "Absent" ""; Row 2 "Bob" "Absent" ""] ∧
  files (world o) = files w1.
Proof.
  intros w gone now w1 o.
  assert (meta gone !! CURRENT_CSV_DATE ≠ Some (isoformat (active_day 0 now)) ∨
          files gone !! attendance_file (isoformat (active_day 0 now)) = None) as H.
  { right. reflexivity. }
  assert ("1970-01-02 01:00:00" ≠ "") as Hne by discriminate.
  destruct (remade_file_not_repaired utc_fromtimestamp reliable 0 sample_roster
              sample_roster now gone 2 bob "1970-01-02 01:00:00" sample_csv
              (Rec 2 (93600 # 1)) H eq_refl eq_refl Hne eq_refl eq_refl)
    as (_ & _ & H1 & _).
  split; [reflexivity|]. split; [reflexivity|]. split; [reflexivity|exact H1].
Defined.
